(** * Dra. Ana IA (minimal): the webhook-to-reply pipeline of [app/main.py]

    A shallow embedding of the conversation store ([app/models.py]), the
    session dependency ([app/db.py]) and the message pipeline
    ([app/main.py]), followed by the properties of the specification that
    are settled on it.

    Conventions.
    - A Python [str] is a list of Unicode code points ([N]); [len], [filter]
      and [startswith] therefore count code points, as Python does.
    - A coroutine is a function from the world to an outcome and a new
      world: what was posted to the gateway before an exception is raised
      stays posted, as in Python, while a statement that fails takes the
      transaction of the session with it.
    - Everything the process does not decide itself (identifiers drawn by
      [uuid.uuid4], the server's [now()], a failing round trip to the
      database, the answers of the two HTTP services, the interpreter's
      Unicode tables behind [str.isdigit]) is read from an environment
      [Env]. *)

From Stdlib Require Import List ZArith NArith Bool Lia String Ascii Sorted Permutation.
Import ListNotations.

Set Implicit Arguments.

(** ** Python strings *)

Definition str := list N.

(** An ASCII literal as a [str]. *)
Definition py (s : string) : str :=
  map N_of_ascii (list_ascii_of_string s).

Fixpoint str_eqb (a b : str) : bool :=
  match a, b with
  | [], [] => true
  | x :: a', y :: b' => N.eqb x y && str_eqb a' b'
  | _, _ => false
  end.

(** [s.startswith(p)] *)
Fixpoint startswith (s p : str) {struct p} : bool :=
  match p, s with
  | [], _ => true
  | y :: p', x :: s' => N.eqb x y && startswith s' p'
  | _ :: _, [] => false
  end.

(** [str.isspace] on one code point: the white space table of CPython
    ([_PyUnicode_IsWhitespace]). *)
Definition isspace (c : N) : bool :=
  ((9 <=? c) && (c <=? 13) || (28 <=? c) && (c <=? 32)
   || (c =? 133) || (c =? 160) || (c =? 5760)
   || (8192 <=? c) && (c <=? 8202)
   || (c =? 8232) || (c =? 8233) || (c =? 8239) || (c =? 8287)
   || (c =? 12288))%N.

Fixpoint lstrip (s : str) : str :=
  match s with
  | c :: s' => if isspace c then lstrip s' else s
  | [] => []
  end.

(** [s.strip()] *)
Definition strip (s : str) : str := rev (lstrip (rev (lstrip s))).

(** Truth value of a [str]: [if message:] *)
Definition nonempty (s : str) : bool :=
  match s with [] => false | _ :: _ => true end.

(** Truth value of an [Optional[str]]: [if name:], [if ai_response:] *)
Definition truthy (o : option str) : bool :=
  match o with Some s => nonempty s | None => false end.

(** [a != b] between an [Optional[str]] attribute and a [str] *)
Definition differs (o : option str) (s : str) : bool :=
  match o with Some t => negb (str_eqb t s) | None => true end.

(** ** app/models.py *)

Definition UUID := N.

Inductive SenderTypeEnum := USER | AI.

Definition is_AI (k : SenderTypeEnum) : bool :=
  match k with AI => true | USER => false end.

Module User.
Record t := mk
  { id : UUID;
    phone_number : str;
    name : option str;
    created_at : Z;
    updated_at : Z }.
End User.

Module ChatHistory.
Record t := mk
  { id : UUID;
    user_id : UUID;
    message : str;
    sender_type : SenderTypeEnum;
    timestamp : Z }.
End ChatHistory.

(** ** app/schemas.py *)

Module ZapiMessagePayload.
Record t := mk { text : option str }.
End ZapiMessagePayload.

Module ZapiWebhookPayload.
Record t := mk
  { phone : str;
    senderName : option str;
    message : option ZapiMessagePayload.t;
    isGroupMessage : option bool }.
End ZapiWebhookPayload.

Module OpenRouterMessage.
Record t := mk { role : str; content : str }.
End OpenRouterMessage.

Module OpenRouterRequest.
Record t := mk
  { model : str;
    messages : list OpenRouterMessage.t;
    max_tokens : Z }.
End OpenRouterRequest.

Module OpenRouterChoice.
Record t := mk { message : OpenRouterMessage.t }.
End OpenRouterChoice.

Module OpenRouterResponse.
Record t := mk { choices : list OpenRouterChoice.t }.
End OpenRouterResponse.

(** The JSON body posted to the gateway by [send_zapi_message]:
    [{"phone": clean_phone, "message": message}]. *)
Module ZapiSend.
Record t := mk { phone : str; message : str }.
End ZapiSend.

(** ** app/config.py *)

Record Settings := mkSettings
  { OPENROUTER_MODEL : str;
    CONTEXT_MESSAGE_COUNT : Z;
    system_prompt : str }.

(** ** The environment *)

(** What one call of the completion endpoint comes to, by the statement of
    [call_openrouter] that meets it. *)
Inductive CompletionOutcome :=
| PostFailed                          (* client.post raises *)
| StatusError (status : Z)            (* raise_for_status raises *)
| BodyNotJson                         (* response.json() raises *)
| BodyInvalid                         (* model_validate raises *)
| Parsed (r : OpenRouterResponse.t).

(** The same for the gateway's send-text endpoint. *)
Inductive RelayOutcome :=
| RelayPostFailed
| RelayStatusError (status : Z)
| RelayBodyNotJson
| RelayDelivered.

Record Env := mkEnv
  { isdigit : N -> bool;                (* str.isdigit, one code point *)
    uuid4 : nat -> UUID;                (* identifier drawn at round trip k *)
    now : nat -> Z;                     (* the server's now() at round trip k *)
    db_fault : nat -> bool;             (* round trip k fails *)
    openrouter : OpenRouterRequest.t -> CompletionOutcome;
    zapi : ZapiSend.t -> RelayOutcome;
    settings : Settings;
    AsyncSessionFactory : bool }.       (* false: the factory is None *)

(** ** Worlds and coroutines *)

Record Store := mkStore
  { users : list User.t;
    chat_history : list ChatHistory.t }.

Record World := mkWorld
  { database : Store;                   (* what is committed *)
    session : Store;                    (* what the open session sees *)
    zapi_requests : list ZapiSend.t;    (* bodies posted to the gateway *)
    ticks : nat }.                      (* round trips made so far *)

Inductive exn :=
| OperationalError
| IntegrityError
| DataError
| TransportError
| HTTPStatusError (status : Z)
| JSONDecodeError
| ValidationError
| RuntimeError
| HTTPException (status_code : Z).

Inductive outcome (A : Type) :=
| Return (a : A)
| Raise (e : exn).
Arguments Raise {A} e.

Definition io (A : Type) := World -> outcome A * World.

Definition ret {A} (a : A) : io A := fun w => (Return a, w).

Definition raise {A} (e : exn) : io A := fun w => (Raise e, w).

Definition bind {A B} (m : io A) (k : A -> io B) : io B :=
  fun w =>
    match m w with
    | (Return a, w') => k a w'
    | (Raise e, w') => (Raise e, w')
    end.

(** [try: m  except Exception as e: h e] *)
Definition try_except {A} (m : io A) (h : exn -> io A) : io A :=
  fun w =>
    match m w with
    | (Return a, w') => (Return a, w')
    | (Raise e, w') => h e w'
    end.

Declare Scope io_scope.
Delimit Scope io_scope with io.
Notation "x <- m ;; k" := (bind m (fun x => k))
  (at level 61, m at next level, right associativity) : io_scope.
Notation "m ;; k" := (bind m (fun _ => k))
  (at level 61, right associativity) : io_scope.
Open Scope io_scope.

Definition set_session (st : Store) (w : World) : World :=
  mkWorld (database w) st (zapi_requests w) (ticks w).

Definition set_database (st : Store) (w : World) : World :=
  mkWorld st (session w) (zapi_requests w) (ticks w).

Definition tick (w : World) : World :=
  mkWorld (database w) (session w) (zapi_requests w) (S (ticks w)).

Definition posted (p : ZapiSend.t) (w : World) : World :=
  mkWorld (database w) (session w) (zapi_requests w ++ [p]) (ticks w).

(** A statement that the server fails, and a flush that fails, end the
    transaction of the session: the server aborts it, the session rolls
    it back. What the session wrote and did not commit is gone, and the
    session is back at what is committed. A commit that follows stores
    nothing, whether the session accepts it or refuses it; which of the
    two is not kept here. *)
Definition lose_transaction (w : World) : World :=
  set_session (database w) w.

(** Raising from a failed statement. *)
Definition fail {A} (e : exn) : io A :=
  fun w => (Raise e, lose_transaction w).

(** ** Ordering rows *)

(** [ORDER BY timestamp DESC]. SQL leaves the order of rows with equal
    timestamps open; the embedding keeps them in table order. *)
Fixpoint insert_desc (x : ChatHistory.t) (l : list ChatHistory.t) : list ChatHistory.t :=
  match l with
  | [] => [x]
  | y :: l' =>
      if (ChatHistory.timestamp y <=? ChatHistory.timestamp x)%Z
      then x :: y :: l'
      else y :: insert_desc x l'
  end.

Fixpoint order_by_desc_timestamp (l : list ChatHistory.t) : list ChatHistory.t :=
  match l with
  | [] => []
  | x :: l' => insert_desc x (order_by_desc_timestamp l')
  end.

(** ** The fixed texts of the pipeline *)

(** line 164: the apology relayed when no reply was obtained. *)
Definition fallback_apology : str :=
  py "Desculpe, n" ++ [227%N] ++ py "o consegui processar sua solicita"
  ++ [231%N; 227%N] ++ py "o no momento. " ++ [129402%N]
  ++ py " Tente novamente mais tarde.".

(** line 176: the text relayed by the top-level guard. *)
Definition internal_error_text : str :=
  py "Ocorreu um erro interno. Por favor, tente novamente mais tarde.".

Section App.

Variable env : Env.

(** *** The session ([AsyncSession]) *)

(** One awaited call on the session is one round trip to the server. It
    yields its index, by which the environment is read. A round trip that
    fails raises and loses the transaction. *)
Definition round_trip : io nat :=
  fun w =>
    if db_fault env (ticks w)
    then (Raise OperationalError, tick (lose_transaction w))
    else (Return (ticks w), tick w).

Definition has_user_id (i : UUID) (st : Store) : bool :=
  existsb (fun u => N.eqb (User.id u) i) (users st).

Definition has_phone (p : str) (st : Store) : bool :=
  existsb (fun u => str_eqb (User.phone_number u) p) (users st).

Definition has_chat_id (i : UUID) (st : Store) : bool :=
  existsb (fun c => N.eqb (ChatHistory.id c) i) (chat_history st).

(** [select(User).filter(User.phone_number == phone)] then
    [.scalars().first()] *)
Definition select_user_by_phone (phone : str) : io (option User.t) :=
  _ <- round_trip ;;
  fun w =>
    (Return (find (fun u => str_eqb (User.phone_number u) phone)
                  (users (session w))), w).

(** [session.add(User(phone_number=phone, name=name))] then [flush()]:
    the INSERT, with the column defaults of the model and its primary
    key and unique constraints. A flush that fails rolls the session
    back. *)
Definition flush_new_user (phone : str) (name : option str) : io User.t :=
  k <- round_trip ;;
  fun w =>
    let st := session w in
    let row := User.mk (uuid4 env k) phone name (now env k) (now env k) in
    if has_user_id (User.id row) st || has_phone phone st
    then fail IntegrityError w
    else (Return row, set_session (mkStore (users st ++ [row]) (chat_history st)) w).

(** [user.name = name; session.add(user)] then [flush()]: the UPDATE of
    the row, with [onupdate] of [updated_at]. *)
Definition flush_user_name (user : User.t) (name : str) : io User.t :=
  k <- round_trip ;;
  fun w =>
    let st := session w in
    let row := User.mk (User.id user) (User.phone_number user) (Some name)
                       (User.created_at user) (now env k) in
    let upd u := if N.eqb (User.id u) (User.id user) then row else u in
    (Return row, set_session (mkStore (map upd (users st)) (chat_history st)) w).

(** [session.refresh(obj)]: the flushed row already carries its server
    defaults here, so the reload is a round trip that hands it back. *)
Definition refresh {A} (obj : A) : io A :=
  _ <- round_trip ;; ret obj.

(** [session.add(ChatHistory(...))] then [flush()]: the INSERT, with the
    primary key and the foreign key on [users.id]. A flush that fails
    rolls the session back, and with it the rows flushed before. *)
Definition flush_new_chat (user_id : UUID) (message : str)
           (sender : SenderTypeEnum) : io ChatHistory.t :=
  k <- round_trip ;;
  fun w =>
    let st := session w in
    let row := ChatHistory.mk (uuid4 env k) user_id message sender (now env k) in
    if has_chat_id (ChatHistory.id row) st || negb (has_user_id user_id st)
    then fail IntegrityError w
    else (Return row, set_session (mkStore (users st) (chat_history st ++ [row])) w).

(** [select(ChatHistory).filter(user_id == ...).order_by(desc(timestamp))
    .limit(limit)] then [.scalars().all()]. The server rejects a
    negative LIMIT, which aborts the transaction. *)
Definition select_recent_chat (user_id : UUID) (limit : Z)
  : io (list ChatHistory.t) :=
  _ <- round_trip ;;
  if (limit <? 0)%Z then fail DataError
  else
    fun w =>
      (Return (firstn (Z.to_nat limit)
                 (order_by_desc_timestamp
                    (filter (fun c => N.eqb (ChatHistory.user_id c) user_id)
                            (chat_history (session w))))), w).

(** *** app/main.py: the helpers *)

Definition get_or_create_user (phone : str) (name : option str) : io User.t :=
  user <- select_user_by_phone phone ;;
  match user with
  | Some user =>
      if truthy name && (negb (truthy (User.name user))
                         || match name with
                            | Some n => differs (User.name user) n
                            | None => true
                            end)
      then
        match name with
        | Some n =>
            user <- flush_user_name user n ;;
            refresh user
        | None => ret user
        end
      else ret user
  | None =>
      new_user <- flush_new_user phone name ;;
      refresh new_user
  end.

Definition save_chat_message (user_id : UUID) (message : str)
           (sender : SenderTypeEnum) : io unit :=
  _ <- flush_new_chat user_id message sender ;;
  ret tt.

Definition get_chat_history (user_id : UUID) (limit : Z)
  : io (list ChatHistory.t) :=
  messages <- select_recent_chat user_id limit ;;
  ret (rev messages).

(** [client.post], [raise_for_status], [response.json()] and
    [model_validate], lines 90 to 93. *)
Definition openrouter_exchange (payload : OpenRouterRequest.t)
  : io OpenRouterResponse.t :=
  match openrouter env payload with
  | PostFailed => raise TransportError
  | StatusError status => raise (HTTPStatusError status)
  | BodyNotJson => raise JSONDecodeError
  | BodyInvalid => raise ValidationError
  | Parsed r => ret r
  end.

Definition call_openrouter (history : list OpenRouterMessage.t)
  : io (option str) :=
  let payload :=
    OpenRouterRequest.mk
      (OPENROUTER_MODEL (settings env))
      (OpenRouterMessage.mk (py "system") (system_prompt (settings env))
         :: history)
      1000 in
  try_except
    (parsed_response <- openrouter_exchange payload ;;
     match OpenRouterResponse.choices parsed_response with
     | choice :: _ =>
         let ai_message :=
           OpenRouterMessage.content (OpenRouterChoice.message choice) in
         ret (Some (strip ai_message))
     | [] => ret None
     end)
    (fun e =>
       match e with
       | HTTPStatusError _ => ret None
       | _ => ret None
       end).

(** lines 116 to 118 of [send_zapi_message] *)
Definition clean_phone (phone : str) : str :=
  let clean_phone := filter (isdigit env) phone in
  if (List.length clean_phone <=? 11)%nat && negb (startswith clean_phone (py "55"))
  then py "55" ++ clean_phone
  else clean_phone.

(** [client.post], [raise_for_status] and the [response.json()] of the
    debug line, lines 127 to 130. *)
Definition zapi_exchange (payload : ZapiSend.t) : io unit :=
  fun w =>
    match zapi env payload with
    | RelayPostFailed => (Raise TransportError, posted payload w)
    | RelayStatusError status => (Raise (HTTPStatusError status), posted payload w)
    | RelayBodyNotJson => (Raise JSONDecodeError, posted payload w)
    | RelayDelivered => (Return tt, posted payload w)
    end.

Definition send_zapi_message (phone : str) (message : str) : io unit :=
  if negb (nonempty message) then ret tt
  else
    let payload := ZapiSend.mk (clean_phone phone) message in
    try_except
      (zapi_exchange payload)
      (fun e =>
         match e with
         | HTTPStatusError _ => ret tt
         | _ => ret tt
         end).

(** *** app/main.py: the pipeline *)

Definition history_for_ai (history_db : list ChatHistory.t)
  : list OpenRouterMessage.t :=
  map (fun msg =>
         OpenRouterMessage.mk
           (if is_AI (ChatHistory.sender_type msg)
            then py "assistant" else py "user")
           (ChatHistory.message msg))
      history_db.

Definition process_incoming_message (phone : str) (name : option str)
           (user_message : str) : io unit :=
  try_except
    (user <- get_or_create_user phone name ;;
     save_chat_message (User.id user) user_message USER ;;
     history_db <- get_chat_history (User.id user)
                                    (CONTEXT_MESSAGE_COUNT (settings env)) ;;
     ai_response <- call_openrouter (history_for_ai history_db) ;;
     match ai_response with
     | Some reply =>
         if nonempty reply
         then
           save_chat_message (User.id user) reply AI ;;
           send_zapi_message phone reply
         else send_zapi_message phone fallback_apology
     | None => send_zapi_message phone fallback_apology
     end)
    (fun _ =>
       try_except
         (send_zapi_message phone internal_error_text)
         (fun _ => ret tt)).

(** *** app/db.py: the session dependency *)

(** Entering [AsyncSessionFactory()]: the session starts from what is
    committed. *)
Definition open_session : io unit :=
  fun w => (Return tt, set_session (database w) w).

(** [session.commit()] *)
Definition commit : io unit :=
  _ <- round_trip ;;
  fun w => (Return tt, set_database (session w) w).

(** [session.rollback()]: what the session wrote is dropped, whether or
    not the server still answers. *)
Definition rollback : io unit :=
  fun w =>
    let w' := set_session (database w) w in
    match round_trip w' with
    | (Return _, w'') => (Return tt, w'')
    | (Raise e, w'') => (Raise e, w'')
    end.

(** [get_db], with [body] standing for what runs while the generator is
    suspended at [yield session]. The [finally: session.close()] gives
    the connection back and changes nothing that is kept here. *)
Definition get_db {A} (body : io A) : io A :=
  if negb (AsyncSessionFactory env) then raise RuntimeError
  else
    open_session ;;
    try_except
      (a <- body ;;
       commit ;;
       ret a)
      (fun e => rollback ;; raise e).

(** *** app/main.py: the webhook *)

(** The request body, by how far [request.json()] and
    [ZapiWebhookPayload.model_validate] get with it. *)
Inductive RequestBody :=
| NotJson
| JsonRejected
| JsonPayload (p : ZapiWebhookPayload.t).

Definition request_json (request : RequestBody) : io RequestBody :=
  match request with
  | NotJson => raise JSONDecodeError
  | _ => ret request
  end.

Definition model_validate (payload : RequestBody) : io ZapiWebhookPayload.t :=
  match payload with
  | JsonPayload p => ret p
  | _ => raise ValidationError
  end.

Record Response := mkResponse
  { status_code : Z;
    content : list (string * string) }.

(** One [background_tasks.add_task(process_incoming_message, db_session,
    phone, name, user_message)]. *)
Record BackgroundTask := mkTask
  { task_phone : str;
    task_name : option str;
    task_user_message : str }.

Definition status (s : string) : Response :=
  mkResponse 200 [("status"%string, s)].

Definition handle_zapi_webhook (request : RequestBody)
  : io (Response * list BackgroundTask) :=
  payload <- try_except (request_json request)
                        (fun _ => raise (HTTPException 400)) ;;
  try_except
    (webhook_data <- model_validate payload ;;
     match ZapiWebhookPayload.isGroupMessage webhook_data with
     | Some true => ret (status "ignored_group_message", [])
     | _ =>
         match ZapiWebhookPayload.message webhook_data with
         | None => ret (status "ignored_no_text", [])
         | Some message =>
             if negb (truthy (ZapiMessagePayload.text message))
             then ret (status "ignored_no_text", [])
             else
               let phone := ZapiWebhookPayload.phone webhook_data in
               let name := ZapiWebhookPayload.senderName webhook_data in
               let user_message :=
                 strip (match ZapiMessagePayload.text message with
                        | Some t => t
                        | None => []
                        end) in
               if negb (nonempty user_message)
               then ret (status "ignored_empty_text", [])
               else ret (status "received",
                         [mkTask phone name user_message])
         end
     end)
    (fun _ => ret (status "processing_error", [])).

Fixpoint run_background (tasks : list BackgroundTask) : io unit :=
  match tasks with
  | [] => ret tt
  | t :: tasks' =>
      process_incoming_message (task_phone t) (task_name t)
                               (task_user_message t) ;;
      run_background tasks'
  end.

(** The route [POST /webhook/zapi]: the framework resolves
    [Depends(db.get_db)], calls the handler and runs the tasks it
    queued; the session is committed or rolled back by [get_db] once
    they are done, which is the order the comments at lines 166 to 168
    and 179 of [main.py] rely on. *)
Definition post_webhook_zapi (request : RequestBody) : io Response :=
  get_db
    (r <- handle_zapi_webhook request ;;
     run_background (snd r) ;;
     ret (fst r)).

End App.

(** ** app/config.py: the two properties of [Settings] *)

Module config.

Fixpoint lstrip_slash (s : str) : str :=
  match s with
  | c :: s' => if N.eqb c 47 then lstrip_slash s' else s
  | [] => []
  end.

(** [s.rstrip('/')] *)
Definition rstrip_slash (s : str) : str := rev (lstrip_slash (rev s)).

(** The fields the two properties read. *)
Record Gateway := mkGateway
  { ZAPI_INSTANCE_ID : str;
    ZAPI_TOKEN : str;
    ZAPI_API_URL : str }.

(** line 32: the prompt used when the file cannot be read. *)
Definition default_prompt : str :=
  py "Voc" ++ [234%N] ++ py " " ++ [233%N] ++ py " uma assistente virtual.".

(** [Settings.system_prompt], lines 24 to 33. [file] is what reading
    [SYSTEM_PROMPT_PATH] gives, [None] when [open] or [read] raises;
    [cache] is [_system_prompt_cache]. The property returns the prompt
    and leaves the cache behind. *)
Definition system_prompt (file : option str) (cache : option str)
  : str * option str :=
  match cache with
  | None =>
      let cached :=
        match file with
        | Some text => strip text
        | None => default_prompt
        end in
      (cached, Some cached)
  | Some cached => (cached, Some cached)
  end.

(** [Settings.zapi_send_message_url], lines 35 to 39. *)
Definition zapi_send_message_url (g : Gateway) : str :=
  let base_url := rstrip_slash (ZAPI_API_URL g) in
  base_url ++ py "/instances/" ++ ZAPI_INSTANCE_ID g
           ++ py "/token/" ++ ZAPI_TOKEN g ++ py "/send-text".

End config.

(** ** Concrete environments and worlds, for running the embedding *)

(** [str.isdigit] on the code points below 256: the ASCII digits and the
    superscripts U+00B2, U+00B3 and U+00B9. The runs below feed it no
    other code point. *)
Definition isdigit_latin1 (c : N) : bool :=
  ((48 <=? c) && (c <=? 57) || (c =? 178) || (c =? 179) || (c =? 185))%N.

Definition demo_settings : Settings :=
  mkSettings (py "google/gemini-flash-1.5") 6%Z (py "Voce e uma assistente virtual.").

Definition demo_env (fault : nat -> bool) (clock : nat -> Z)
           (answer : CompletionOutcome) : Env :=
  mkEnv isdigit_latin1 (fun k => N.of_nat (100 + k)) clock fault
        (fun _ => answer) (fun _ => RelayDelivered) demo_settings true.

Definition no_fault : nat -> bool := fun _ => false.

Definition wall_clock : nat -> Z := fun k => Z.of_nat (1000 + k).

Definition answer_with (reply : str) : CompletionOutcome :=
  Parsed (OpenRouterResponse.mk
            [OpenRouterChoice.mk (OpenRouterMessage.mk (py "assistant") reply)]).

Definition empty_store : Store := mkStore [] [].

Definition new_world : World := mkWorld empty_store empty_store [] 0.

(** A store with one user and one message of hers, stamped 10. *)
Definition ana : User.t :=
  User.mk 7%N (py "5511987654321") (Some (py "Ana")) 1%Z 1%Z.

Definition old_message : ChatHistory.t :=
  ChatHistory.mk 8%N 7%N (py "bom dia") USER 10%Z.

Definition ana_store : Store := mkStore [ana] [old_message].

Definition ana_world : World := mkWorld ana_store ana_store [] 0.

(** An environment whose server clock stands at 5, behind [old_message],
    and one whose clock stands at 10, level with it. *)
Definition stale_clock_env : Env :=
  demo_env no_fault (fun _ => 5%Z) PostFailed.

Definition level_clock_env : Env :=
  demo_env no_fault (fun _ => 10%Z) PostFailed.

(** A server whose fifth round trip fails: in a run for an unseen phone
    that is the SELECT of [get_chat_history]. *)
Definition fifth_fails : nat -> bool := fun k => Nat.eqb k 4.

Definition faulty_env : Env := demo_env fifth_fails wall_clock (answer_with (py "Ola")).

Definition quiet_env : Env := demo_env no_fault wall_clock (answer_with (py "Ola")).

Definition silent_env : Env := demo_env no_fault wall_clock PostFailed.

Definition blank_env : Env := demo_env no_fault wall_clock (answer_with (py "   ")).

Definition inbound_payload (phone : str) (text : str) : ZapiWebhookPayload.t :=
  ZapiWebhookPayload.mk phone (Some (py "Bia"))
    (Some (ZapiMessagePayload.mk (Some text))) (Some false).

Definition inbound (phone : str) (text : str) : RequestBody :=
  JsonPayload (inbound_payload phone text).

Definition group_payload : ZapiWebhookPayload.t :=
  ZapiWebhookPayload.mk (py "5511987654321") (Some (py "Bia"))
    (Some (ZapiMessagePayload.mk (Some (py "oi")))) (Some true).

(** ** Vocabulary of the statements *)

(** Descending and ascending order of timestamps. *)
Definition newer_first (a b : ChatHistory.t) : Prop :=
  (ChatHistory.timestamp b <= ChatHistory.timestamp a)%Z.

Definition older_first (a b : ChatHistory.t) : Prop :=
  (ChatHistory.timestamp a <= ChatHistory.timestamp b)%Z.

(** The server answers every round trip. *)
Definition reliable (env : Env) : Prop := forall k, db_fault env k = false.

(** On ASCII, [str.isdigit] holds of the ten digits only. *)
Definition ascii_isdigit (c : N) : bool := ((48 <=? c) && (c <=? 57))%N.

Definition ascii_digits (env : Env) : Prop :=
  forall c, (c < 128)%N -> isdigit env c = ascii_isdigit c.

(** Every phone number stored in [l'] is [P] or is already stored in [l]. *)
Definition grows (P : str) (l l' : list User.t) : Prop :=
  forall u, In u l' ->
            User.phone_number u = P \/
            exists u0, In u0 l /\ User.phone_number u0 = User.phone_number u.

(** The request [call_openrouter] sends for a history. *)
Definition completion_request (env : Env) (history : list OpenRouterMessage.t)
  : OpenRouterRequest.t :=
  OpenRouterRequest.mk
    (OPENROUTER_MODEL (settings env))
    (OpenRouterMessage.mk (py "system") (system_prompt (settings env)) :: history)
    1000.

(** The columns that identify a user. *)
Definition key (u : User.t) : UUID * str := (User.id u, User.phone_number u).

(** The primary key and the unique constraint of [users]. *)
Definition keys_unique (st : Store) : Prop :=
  NoDup (map User.id (users st)) /\ NoDup (map User.phone_number (users st)).

(** A text that neither starts nor ends with white space. *)
Definition trimmed (s : str) : Prop :=
  match s with c :: _ => isspace c = false | [] => True end /\
  match rev s with c :: _ => isspace c = false | [] => True end.

(** Timestamps that strictly grow along the table. *)
Definition strictly_older_first (a b : ChatHistory.t) : Prop :=
  (ChatHistory.timestamp a < ChatHistory.timestamp b)%Z.

(** Rows of one user. *)
Definition of_user (U : UUID) (c : ChatHistory.t) : bool :=
  N.eqb (ChatHistory.user_id c) U.

(** A gateway with a base URL, for running [zapi_send_message_url]. *)
Definition demo_gateway (base : str) : config.Gateway :=
  config.mkGateway (py "3C01") (py "F00D") base.

(** The environment with another completion endpoint. *)
Definition with_openrouter (env : Env)
           (endpoint : OpenRouterRequest.t -> CompletionOutcome) : Env :=
  mkEnv (isdigit env) (uuid4 env) (now env) (db_fault env) endpoint
        (zapi env) (settings env) (AsyncSessionFactory env).

(** ** Properties: strings *)

Lemma str_eqb_eq (a b : str) : str_eqb a b = true <-> a = b.
Proof.
  revert b; induction a as [|x a IH]; intros [|y b]; simpl; split;
    try congruence; try reflexivity.
  - intros H. apply andb_true_iff in H as [Hx Hab].
    apply N.eqb_eq in Hx. apply IH in Hab. congruence.
  - intros H. injection H as -> ->.
    apply andb_true_iff. split; [apply N.eqb_refl | now apply IH].
Qed.

Lemma str_eqb_refl (a : str) : str_eqb a a = true.
Proof. now apply str_eqb_eq. Qed.

Lemma str_eqb_neq (a b : str) : str_eqb a b = false <-> a <> b.
Proof.
  split.
  - intros H E. apply str_eqb_eq in E. congruence.
  - intros H. destruct (str_eqb a b) eqn:E; [|reflexivity].
    apply str_eqb_eq in E. contradiction.
Qed.

Lemma startswith_prefix (s p : str) :
  startswith s p = true <-> exists rest, s = p ++ rest.
Proof.
  revert s; induction p as [|y p IH]; intros s; simpl.
  - split; [intros _; now exists s | reflexivity].
  - destruct s as [|x s].
    + split; [discriminate | intros [rest H]; discriminate].
    + rewrite andb_true_iff, N.eqb_eq, IH. split.
      * intros [-> [rest ->]]. now exists rest.
      * intros [rest H]. injection H as -> ->. split; [reflexivity | now exists rest].
Qed.

Lemma lstrip_blank (s : str) : forallb isspace s = true -> lstrip s = [].
Proof.
  induction s as [|c s IH]; simpl; [reflexivity|].
  intros H. apply andb_true_iff in H as [Hc Hs]. rewrite Hc. now apply IH.
Qed.

Lemma strip_blank (s : str) : forallb isspace s = true -> strip s = [].
Proof. intros H. unfold strip. now rewrite (lstrip_blank s H). Qed.

(** ** Properties: ordering *)

Lemma insert_desc_In x l y : In y (insert_desc x l) <-> y = x \/ In y l.
Proof.
  induction l as [|z l IH]; simpl.
  - intuition.
  - destruct (ChatHistory.timestamp z <=? ChatHistory.timestamp x)%Z; simpl.
    + intuition.
    + rewrite IH. intuition.
Qed.

Lemma insert_desc_sorted x l :
  StronglySorted newer_first l -> StronglySorted newer_first (insert_desc x l).
Proof.
  induction 1 as [|z l Hl IH Hz]; simpl.
  - constructor; [constructor | constructor].
  - destruct (Z.leb_spec (ChatHistory.timestamp z) (ChatHistory.timestamp x)) as [Hle|Hlt].
    + constructor; [now constructor|].
      constructor; [exact Hle|].
      rewrite Forall_forall in *. intros y Hy. specialize (Hz y Hy).
      unfold newer_first in *. lia.
    + constructor; [exact IH|].
      rewrite Forall_forall in *. intros y Hy.
      apply insert_desc_In in Hy as [->|Hy].
      * unfold newer_first. lia.
      * now apply Hz.
Qed.

Lemma order_by_desc_In l y : In y (order_by_desc_timestamp l) <-> In y l.
Proof.
  induction l as [|x l IH]; simpl; [reflexivity|].
  rewrite insert_desc_In, IH. intuition.
Qed.

Lemma order_by_desc_sorted l : StronglySorted newer_first (order_by_desc_timestamp l).
Proof.
  induction l as [|x l IH]; simpl; [constructor | now apply insert_desc_sorted].
Qed.

Lemma order_by_desc_length l : List.length (order_by_desc_timestamp l) = List.length l.
Proof.
  assert (Hins : forall x k, List.length (insert_desc x k) = S (List.length k)).
  { intros x k; induction k as [|z k IH]; simpl; [reflexivity|].
    destruct (ChatHistory.timestamp z <=? ChatHistory.timestamp x)%Z; simpl; congruence. }
  induction l as [|x l IH]; simpl; [reflexivity|]. now rewrite Hins, IH.
Qed.

Lemma sorted_app_cross {A} (R : A -> A -> Prop) (a b : list A) :
  StronglySorted R (a ++ b) -> forall x y, In x a -> In y b -> R x y.
Proof.
  induction a as [|z a IH]; simpl; intros Hs x y Hx Hy; [contradiction|].
  inversion Hs as [|? ? Hs' Hall]; subst.
  destruct Hx as [->|Hx].
  - rewrite Forall_forall in Hall. apply Hall, in_or_app. now right.
  - now apply IH.
Qed.

Lemma sorted_app_left {A} (R : A -> A -> Prop) (a b : list A) :
  StronglySorted R (a ++ b) -> StronglySorted R a.
Proof.
  induction a as [|z a IH]; simpl; intros Hs; [constructor|].
  inversion Hs as [|? ? Hs' Hall]; subst.
  constructor; [now apply IH|].
  rewrite Forall_forall in *. intros y Hy. apply Hall, in_or_app. now left.
Qed.

Lemma sorted_snoc {A} (R : A -> A -> Prop) (a : list A) (x : A) :
  StronglySorted R a -> (forall y, In y a -> R y x) -> StronglySorted R (a ++ [x]).
Proof.
  induction 1 as [|z a Ha IH Hz]; simpl; intros Hx.
  - constructor; constructor.
  - constructor.
    + apply IH. intros y Hy. apply Hx. now right.
    + rewrite Forall_forall in *. intros y Hy.
      apply in_app_or in Hy as [Hy|[<-|[]]]; [now apply Hz | apply Hx; now left].
Qed.

Lemma sorted_rev l :
  StronglySorted newer_first l -> StronglySorted older_first (rev l).
Proof.
  induction 1 as [|z l Hl IH Hz]; simpl; [constructor|].
  apply sorted_snoc; [exact IH|].
  intros y Hy. apply in_rev in Hy. rewrite Forall_forall in Hz.
  exact (Hz y Hy).
Qed.

Lemma order_by_desc_newest l m :
  (forall c, In c l -> (ChatHistory.timestamp c < ChatHistory.timestamp m)%Z) ->
  order_by_desc_timestamp (l ++ [m]) = m :: order_by_desc_timestamp l.
Proof.
  induction l as [|x l IH]; simpl; intros Hnew; [reflexivity|].
  rewrite IH by (intros c Hc; apply Hnew; now right).
  simpl. specialize (Hnew x (or_introl eq_refl)).
  destruct (Z.leb_spec (ChatHistory.timestamp m) (ChatHistory.timestamp x)); [lia | reflexivity].
Qed.

Lemma insert_desc_perm x l : Permutation (insert_desc x l) (x :: l).
Proof.
  induction l as [|y l IH]; simpl; [reflexivity|].
  destruct (ChatHistory.timestamp y <=? ChatHistory.timestamp x)%Z; [reflexivity|].
  rewrite IH. apply perm_swap.
Qed.

Lemma order_by_desc_perm l : Permutation (order_by_desc_timestamp l) l.
Proof.
  induction l as [|x l IH]; simpl; [reflexivity|].
  rewrite insert_desc_perm. now constructor.
Qed.

(** ** Properties: the session *)

Lemma round_trip_ok env w :
  db_fault env (ticks w) = false ->
  round_trip env w = (Return (ticks w), tick w).
Proof. intros H. unfold round_trip. now rewrite H. Qed.

Lemma has_user_id_true i st :
  has_user_id i st = true <-> exists u, In u (users st) /\ User.id u = i.
Proof.
  unfold has_user_id. rewrite existsb_exists.
  split; intros [u [Hu E]]; exists u; split; auto; now apply N.eqb_eq.
Qed.

Lemma has_user_id_false i st :
  has_user_id i st = false <-> forall u, In u (users st) -> User.id u <> i.
Proof.
  split.
  - intros H u Hu E.
    assert (has_user_id i st = true) by (apply has_user_id_true; eauto).
    congruence.
  - intros H. destruct (has_user_id i st) eqn:E; [|reflexivity].
    apply has_user_id_true in E as [u [Hu E]]. now apply H in Hu.
Qed.

Lemma has_chat_id_false i st :
  has_chat_id i st = false <->
  forall c, In c (chat_history st) -> ChatHistory.id c <> i.
Proof.
  unfold has_chat_id. split.
  - intros H c Hc E.
    assert (existsb (fun c => N.eqb (ChatHistory.id c) i) (chat_history st) = true).
    { apply existsb_exists. exists c. split; [exact Hc | now apply N.eqb_eq]. }
    congruence.
  - intros H.
    destruct (existsb (fun c => N.eqb (ChatHistory.id c) i) (chat_history st)) eqn:E;
      [|reflexivity].
    apply existsb_exists in E as [c [Hc E]]. apply N.eqb_eq in E.
    now apply H in Hc.
Qed.

Lemma has_phone_false p st :
  has_phone p st = false <->
  forall u, In u (users st) -> User.phone_number u <> p.
Proof.
  unfold has_phone. split.
  - intros H u Hu E.
    assert (existsb (fun u => str_eqb (User.phone_number u) p) (users st) = true).
    { apply existsb_exists. exists u. split; [exact Hu | now apply str_eqb_eq]. }
    congruence.
  - intros H.
    destruct (existsb (fun u => str_eqb (User.phone_number u) p) (users st)) eqn:E;
      [|reflexivity].
    apply existsb_exists in E as [u [Hu E]]. apply str_eqb_eq in E.
    now apply H in Hu.
Qed.

(** What a successful [save_chat_message] does to the world. *)
Lemma save_chat_message_ok env w U T S :
  db_fault env (ticks w) = false ->
  has_chat_id (uuid4 env (ticks w)) (session w) = false ->
  has_user_id U (session w) = true ->
  save_chat_message env U T S w =
    (Return tt,
     set_session
       (mkStore (users (session w))
          (chat_history (session w)
             ++ [ChatHistory.mk (uuid4 env (ticks w)) U T S (now env (ticks w))]))
       (tick w)).
Proof.
  intros Hf Hid Hu.
  unfold save_chat_message, flush_new_chat, bind.
  rewrite (round_trip_ok env w Hf). simpl.
  unfold has_chat_id, has_user_id in *. simpl. now rewrite Hid, Hu.
Qed.

(** A [save_chat_message] that returns has added one row, with the
    text and the sender kind it was given, and nothing else. *)
Lemma save_chat_message_inv env w U T S w' :
  save_chat_message env U T S w = (Return tt, w') ->
  exists row,
    ChatHistory.user_id row = U /\ ChatHistory.message row = T /\
    ChatHistory.sender_type row = S /\
    session w' = mkStore (users (session w)) (chat_history (session w) ++ [row]) /\
    database w' = database w /\ zapi_requests w' = zapi_requests w.
Proof.
  unfold save_chat_message, flush_new_chat, bind, round_trip.
  destruct (db_fault env (ticks w)); [discriminate|]. simpl.
  destruct (_ || _); [discriminate|].
  intros H. injection H as <-. eexists. simpl. repeat split; reflexivity.
Qed.

(** What [get_chat_history] returns, when it returns. *)
Lemma get_chat_history_inv env w U N msgs w' :
  get_chat_history env U N w = (Return msgs, w') ->
  (0 <= N)%Z /\ w' = tick w /\
  msgs = rev (firstn (Z.to_nat N)
                (order_by_desc_timestamp
                   (filter (fun c => N.eqb (ChatHistory.user_id c) U)
                           (chat_history (session w))))).
Proof.
  unfold get_chat_history, select_recent_chat, bind, round_trip, ret, raise.
  destruct (db_fault env (ticks w)); [discriminate|].
  destruct (Z.ltb_spec N 0) as [Hneg|Hpos]; [discriminate|].
  simpl. intros E. injection E as <- <-. repeat split; auto.
Qed.

Lemma get_chat_history_ok env w U N :
  db_fault env (ticks w) = false -> (0 <= N)%Z ->
  get_chat_history env U N w =
    (Return (rev (firstn (Z.to_nat N)
                (order_by_desc_timestamp
                   (filter (fun c => N.eqb (ChatHistory.user_id c) U)
                           (chat_history (session w)))))), tick w).
Proof.
  intros Hf HN.
  unfold get_chat_history, select_recent_chat, bind, ret, raise.
  rewrite (round_trip_ok env w Hf).
  destruct (Z.ltb_spec N 0); [lia | reflexivity].
Qed.

(** ** Properties: the conversation store *)

(** C2. For every user id U and every limit N, what [get_chat_history]
    returns has at most N messages, and exactly N when the user has that
    many, all of them messages of U that are in the store, in ascending
    order of timestamp. They are the N most recent: together with the
    messages left out they make up the messages of U, each as often as it
    is stored, and a message left out is no newer than any message
    returned. The result is the reverse of the first N rows of U by
    descending timestamp. The call returns whenever the server answers
    and N is not negative. *)
Theorem get_chat_history_recent (env : Env) (w : World) (U : UUID) (N : Z) :
  (forall msgs w',
      get_chat_history env U N w = (Return msgs, w') ->
      (Z.of_nat (List.length msgs) <= N)%Z /\
      List.length msgs =
        Nat.min (Z.to_nat N)
                (List.length (filter (fun c => N.eqb (ChatHistory.user_id c) U)
                                     (chat_history (session w)))) /\
      (forall m, In m msgs ->
                 ChatHistory.user_id m = U /\ In m (chat_history (session w))) /\
      StronglySorted older_first msgs /\
      (exists older,
          Permutation (msgs ++ older)
                      (filter (fun c => N.eqb (ChatHistory.user_id c) U)
                              (chat_history (session w))) /\
          forall m r, In m older -> In r msgs ->
                      (ChatHistory.timestamp m <= ChatHistory.timestamp r)%Z) /\
      msgs = rev (firstn (Z.to_nat N)
                    (order_by_desc_timestamp
                       (filter (fun c => N.eqb (ChatHistory.user_id c) U)
                               (chat_history (session w))))) /\
      (forall m r,
          In m (chat_history (session w)) -> ChatHistory.user_id m = U ->
          In r msgs ->
          In m msgs \/ (ChatHistory.timestamp m <= ChatHistory.timestamp r)%Z))
  /\ (db_fault env (ticks w) = false -> (0 <= N)%Z ->
      exists msgs, get_chat_history env U N w = (Return msgs, tick w)).
Proof.
  split.
  - intros msgs w' H. apply get_chat_history_inv in H as (HN & _ & Hmsgs).
    set (mine := filter (fun c => N.eqb (ChatHistory.user_id c) U)
                        (chat_history (session w))) in *.
    set (rows := order_by_desc_timestamp mine) in *.
    assert (Hrows : forall m, In m rows <->
                              In m (chat_history (session w)) /\ ChatHistory.user_id m = U).
    { intros m. unfold rows, mine.
      rewrite order_by_desc_In, filter_In, N.eqb_eq. reflexivity. }
    assert (Hsorted : StronglySorted newer_first rows) by apply order_by_desc_sorted.
    assert (Hsplit : rows = firstn (Z.to_nat N) rows ++ skipn (Z.to_nat N) rows)
      by (symmetry; apply firstn_skipn).
    assert (Hin : forall m, In m msgs <-> In m (firstn (Z.to_nat N) rows)).
    { intros m. rewrite Hmsgs. symmetry. apply in_rev. }
    assert (Hcross : forall m r, In m (skipn (Z.to_nat N) rows) -> In r msgs ->
                       (ChatHistory.timestamp m <= ChatHistory.timestamp r)%Z).
    { intros m r Hm Hr. apply Hin in Hr. rewrite Hsplit in Hsorted.
      eapply (@sorted_app_cross _ newer_first); eauto. }
    split.
    { rewrite Hmsgs, length_rev.
      pose proof (firstn_le_length (Z.to_nat N) rows). lia. }
    split.
    { rewrite Hmsgs, length_rev, length_firstn. unfold rows.
      now rewrite order_by_desc_length. }
    split.
    { intros m Hm. apply Hin in Hm. apply and_comm, (proj1 (Hrows m)).
      rewrite Hsplit. apply in_or_app. now left. }
    split.
    { rewrite Hmsgs. apply sorted_rev.
      rewrite Hsplit in Hsorted. eapply sorted_app_left; exact Hsorted. }
    split.
    { exists (skipn (Z.to_nat N) rows). split; [|exact Hcross].
      rewrite Hmsgs, <- Permutation_rev, firstn_skipn.
      apply order_by_desc_perm. }
    split; [exact Hmsgs|].
    intros m r Hm HU Hr.
    assert (Hmr : In m rows) by (apply Hrows; auto).
    rewrite Hsplit in Hmr. apply in_app_or in Hmr as [Hm1|Hm2].
    + left. now apply Hin.
    + right. now apply Hcross.
  - intros Hf HN. eexists. now apply get_chat_history_ok.
Qed.

Lemma get_chat_history_recent_witness :
  (Z.of_nat (List.length [old_message]) <= 1)%Z /\
  exists msgs,
    get_chat_history (demo_env no_fault wall_clock PostFailed) 7%N 1%Z ana_world
    = (Return msgs, tick ana_world).
Proof.
  split.
  - apply (proj1 (get_chat_history_recent
                    (demo_env no_fault wall_clock PostFailed) ana_world 7%N 1%Z)
                 [old_message] (tick ana_world)).
    reflexivity.
  - apply (proj2 (get_chat_history_recent
                    (demo_env no_fault wall_clock PostFailed) ana_world 7%N 1%Z));
      [reflexivity | lia].
Defined.

(** C3, as it holds. For every user id U of a stored user, when the
    server answers, the identifier drawn is unused and the timestamp the
    server gives M is later than that of every message already stored for
    U: appending M with text T and sender kind S and then reading the last
    1 message of U returns exactly one message, with text T and sender
    kind S. *)
Theorem save_then_last_message (env : Env) (w : World) (U : UUID)
        (T : str) (S : SenderTypeEnum) :
  db_fault env (ticks w) = false ->
  db_fault env (Datatypes.S (ticks w)) = false ->
  (exists u, In u (users (session w)) /\ User.id u = U) ->
  (forall c, In c (chat_history (session w)) ->
             ChatHistory.id c <> uuid4 env (ticks w)) ->
  (forall c, In c (chat_history (session w)) -> ChatHistory.user_id c = U ->
             (ChatHistory.timestamp c < now env (ticks w))%Z) ->
  exists w1 m w2,
    save_chat_message env U T S w = (Return tt, w1) /\
    get_chat_history env U 1 w1 = (Return [m], w2) /\
    ChatHistory.message m = T /\
    ChatHistory.sender_type m = S.
Proof.
  intros Hf0 Hf1 Huser Hfresh Hnewer.
  set (m := ChatHistory.mk (uuid4 env (ticks w)) U T S (now env (ticks w))).
  pose proof (@save_chat_message_ok env w U T S Hf0
                (proj2 (has_chat_id_false _ _) Hfresh)
                (proj2 (has_user_id_true _ _) Huser)) as Hsave.
  fold m in Hsave.
  eexists; exists m; eexists. split; [exact Hsave|].
  split; [|split; reflexivity].
  rewrite get_chat_history_ok by (simpl; auto; lia).
  simpl session. simpl chat_history.
  rewrite filter_app.
  assert (Hm : filter (fun c => N.eqb (ChatHistory.user_id c) U) [m] = [m])
    by (simpl; now rewrite N.eqb_refl).
  rewrite Hm, order_by_desc_newest.
  - reflexivity.
  - intros c Hc. apply filter_In in Hc as [Hc HU]. apply N.eqb_eq in HU.
    now apply Hnewer.
Qed.

Lemma save_then_last_message_witness :
  exists w1 m w2,
    save_chat_message (demo_env no_fault wall_clock PostFailed)
                      7%N (py "oi") AI ana_world = (Return tt, w1) /\
    get_chat_history (demo_env no_fault wall_clock PostFailed) 7%N 1 w1
    = (Return [m], w2) /\
    ChatHistory.message m = py "oi" /\
    ChatHistory.sender_type m = AI.
Proof.
  apply (@save_then_last_message
           (demo_env no_fault wall_clock PostFailed) ana_world 7%N (py "oi") AI).
  - reflexivity.
  - reflexivity.
  - exists ana. split; [now left | reflexivity].
  - intros c [<-|[]]. vm_compute. discriminate.
  - intros c [<-|[]] _. vm_compute. reflexivity.
Defined.

(** C3, as stated, fails. With one message stamped 10 stored for user 7,
    a message appended while the server clock reads 5, or reads 10, is not
    the one returned by reading the last 1 message: the stored one is. *)
Lemma last_message_not_the_appended :
  (exists w1 w2,
      save_chat_message stale_clock_env 7%N (py "oi") AI ana_world = (Return tt, w1) /\
      get_chat_history stale_clock_env 7%N 1 w1 = (Return [old_message], w2) /\
      ChatHistory.message old_message <> py "oi" /\
      ChatHistory.sender_type old_message <> AI)
  /\
  (exists w1 w2,
      save_chat_message level_clock_env 7%N (py "oi") AI ana_world = (Return tt, w1) /\
      get_chat_history level_clock_env 7%N 1 w1 = (Return [old_message], w2) /\
      ChatHistory.message old_message <> py "oi" /\
      ChatHistory.sender_type old_message <> AI).
Proof.
  split; do 2 eexists; (split; [reflexivity|]);
    (split; [reflexivity|]); split; discriminate.
Qed.

Lemma find_none_app {A} (f : A -> bool) (l : list A) (x : A) :
  (forall y, In y l -> f y = false) -> f x = true -> find f (l ++ [x]) = Some x.
Proof.
  induction l as [|y l IH]; simpl; intros Hl Hx.
  - now rewrite Hx.
  - rewrite (Hl y (or_introl eq_refl)). apply IH; auto.
Qed.

Lemma find_none {A} (f : A -> bool) (l : list A) :
  (forall y, In y l -> f y = false) -> find f l = None.
Proof.
  induction l as [|y l IH]; simpl; intros Hl; [reflexivity|].
  rewrite (Hl y (or_introl eq_refl)). apply IH; auto.
Qed.

Lemma filter_none {A} (f : A -> bool) (l : list A) :
  (forall y, In y l -> f y = false) -> filter f l = [].
Proof.
  induction l as [|y l IH]; simpl; intros Hl; [reflexivity|].
  rewrite (Hl y (or_introl eq_refl)). apply IH; auto.
Qed.

Lemma map_untouched {A} (f : A -> A) (l : list A) :
  (forall y, In y l -> f y = y) -> map f l = l.
Proof.
  induction l as [|y l IH]; simpl; intros Hl; [reflexivity|].
  rewrite (Hl y (or_introl eq_refl)), IH; auto.
Qed.

(** The first call for a phone number that no stored user has. *)
Lemma get_or_create_user_new env w P name :
  reliable env ->
  (forall u, In u (users (session w)) -> User.phone_number u <> P) ->
  (forall u, In u (users (session w)) -> User.id u <> uuid4 env (S (ticks w))) ->
  let u := User.mk (uuid4 env (S (ticks w))) P name
                   (now env (S (ticks w))) (now env (S (ticks w))) in
  get_or_create_user env P name w =
    (Return u,
     tick (set_session (mkStore (users (session w) ++ [u])
                                (chat_history (session w)))
                       (tick (tick w)))).
Proof.
  intros Hrel Hphone Hid u.
  unfold get_or_create_user, select_user_by_phone, bind.
  rewrite (round_trip_ok env w (Hrel _)). simpl.
  rewrite find_none
    by (intros y Hy; apply str_eqb_neq; now apply Hphone).
  unfold flush_new_user, refresh, bind, ret.
  rewrite round_trip_ok by apply Hrel. simpl.
  rewrite (proj2 (has_user_id_false _ _) Hid).
  rewrite (proj2 (has_phone_false _ _) Hphone). simpl.
  rewrite round_trip_ok by apply Hrel. reflexivity.
Qed.

(** A later call for a phone number that exactly one stored user has,
    the last of the table. *)
Lemma get_or_create_user_again env w P name rows u :
  reliable env ->
  users (session w) = rows ++ [u] ->
  User.phone_number u = P ->
  (forall v, In v rows -> User.phone_number v <> P) ->
  (forall v, In v rows -> User.id v <> User.id u) ->
  exists u' w',
    get_or_create_user env P name w = (Return u', w') /\
    User.id u' = User.id u /\
    User.phone_number u' = P /\
    users (session w') = rows ++ [u'] /\
    chat_history (session w') = chat_history (session w).
Proof.
  intros Hrel Husers HP Hphone Hid.
  unfold get_or_create_user, select_user_by_phone, bind.
  rewrite (round_trip_ok env w (Hrel _)). simpl.
  rewrite Husers, find_none_app;
    [| intros y Hy; apply str_eqb_neq; now apply Hphone
     | now apply str_eqb_eq].
  destruct (truthy name && _) eqn:Hcond.
  - destruct name as [n|]; [|discriminate].
    unfold flush_user_name, refresh, bind, ret.
    rewrite round_trip_ok by apply Hrel. simpl.
    rewrite round_trip_ok by apply Hrel. simpl.
    do 2 eexists. split; [reflexivity|]. simpl.
    repeat split; auto.
    rewrite Husers, map_app. simpl. rewrite N.eqb_refl. f_equal.
    apply map_untouched. intros y Hy.
    destruct (N.eqb_spec (User.id y) (User.id u)) as [E|_]; [|reflexivity].
    now apply Hid in Hy.
  - do 2 eexists. split; [reflexivity|]. simpl. auto.
Qed.

(** C1. For every phone number P that no stored user has, when the
    server answers and the identifier drawn is unused,
    [get_or_create_user] adds exactly one row to the users, with
    [phone_number = P], and that row is the only one with this phone
    number; a second call with the same P, whatever the name, adds no row,
    leaves that row the only one with this phone number and returns a
    user with the same id. *)
Theorem get_or_create_user_once (env : Env) (w : World) (P : str)
        (name name' : option str) :
  reliable env ->
  (forall u, In u (users (session w)) -> User.phone_number u <> P) ->
  (forall u, In u (users (session w)) -> User.id u <> uuid4 env (S (ticks w))) ->
  exists u w1,
    get_or_create_user env P name w = (Return u, w1) /\
    users (session w1) = users (session w) ++ [u] /\
    User.phone_number u = P /\
    filter (fun v => str_eqb (User.phone_number v) P) (users (session w1)) = [u] /\
    exists u' w2,
      get_or_create_user env P name' w1 = (Return u', w2) /\
      User.id u' = User.id u /\
      List.length (users (session w2)) = List.length (users (session w1)) /\
      filter (fun v => str_eqb (User.phone_number v) P) (users (session w2)) = [u'].
Proof.
  intros Hrel Hphone Hid.
  pose proof (@get_or_create_user_new env w P name Hrel Hphone Hid) as Hfirst.
  simpl in Hfirst.
  set (u := User.mk (uuid4 env (S (ticks w))) P name
                    (now env (S (ticks w))) (now env (S (ticks w)))) in *.
  assert (Hnone : filter (fun v => str_eqb (User.phone_number v) P)
                         (users (session w)) = []).
  { apply filter_none. intros y Hy. apply str_eqb_neq. now apply Hphone. }
  eexists; eexists. split; [exact Hfirst|]. simpl.
  split; [reflexivity|]. split; [reflexivity|].
  split.
  { rewrite filter_app, Hnone. simpl. now rewrite str_eqb_refl. }
  destruct (@get_or_create_user_again env
              (tick (set_session (mkStore (users (session w) ++ [u])
                                          (chat_history (session w)))
                                 (tick (tick w))))
              P name' (users (session w)) u Hrel eq_refl eq_refl Hphone Hid)
    as (u' & w2 & Hsecond & Hsame & HP' & Husers & _).
  exists u', w2. split; [exact Hsecond|]. split; [exact Hsame|].
  rewrite Husers. split.
  - now rewrite !length_app.
  - rewrite filter_app, Hnone. simpl.
    replace (str_eqb (User.phone_number u') P) with true
      by (symmetry; now apply str_eqb_eq).
    reflexivity.
Qed.

Lemma get_or_create_user_once_witness :
  exists u w1,
    get_or_create_user (demo_env no_fault wall_clock PostFailed)
                       (py "11987654321") None ana_world = (Return u, w1) /\
    users (session w1) = users (session ana_world) ++ [u] /\
    User.phone_number u = py "11987654321" /\
    filter (fun v => str_eqb (User.phone_number v) (py "11987654321"))
           (users (session w1)) = [u] /\
    exists u' w2,
      get_or_create_user (demo_env no_fault wall_clock PostFailed)
                         (py "11987654321") (Some (py "Bia")) w1 = (Return u', w2) /\
      User.id u' = User.id u /\
      List.length (users (session w2)) = List.length (users (session w1)) /\
      filter (fun v => str_eqb (User.phone_number v) (py "11987654321"))
             (users (session w2)) = [u'].
Proof.
  apply (@get_or_create_user_once
           (demo_env no_fault wall_clock PostFailed) ana_world
           (py "11987654321") None (Some (py "Bia"))).
  - intros k. reflexivity.
  - intros u [<-|[]]. vm_compute. discriminate.
  - intros u [<-|[]]. vm_compute. discriminate.
Defined.

(** ** Properties: the relay client *)

Lemma send_zapi_message_posts env phone message w :
  message <> [] ->
  send_zapi_message env phone message w =
    (Return tt, posted (ZapiSend.mk (clean_phone env phone) message) w).
Proof.
  intros Hm. unfold send_zapi_message.
  destruct message as [|c message]; [contradiction|]. simpl.
  unfold try_except, zapi_exchange.
  destruct (zapi env _); reflexivity.
Qed.

Lemma filter_ascii_digits env (s : str) :
  ascii_digits env -> Forall (fun c => (c < 128)%N) s ->
  filter (isdigit env) s = filter ascii_isdigit s.
Proof.
  intros Hd. induction 1 as [|c s Hc Hs IH]; simpl; [reflexivity|].
  now rewrite (Hd c Hc), IH.
Qed.

Lemma clean_phone_ascii env (phone : str) :
  ascii_digits env -> forallb (fun c => (c <? 128)%N) phone = true ->
  clean_phone env phone =
    let digits := filter ascii_isdigit phone in
    if (List.length digits <=? 11)%nat && negb (startswith digits (py "55"))
    then py "55" ++ digits else digits.
Proof.
  intros Hd Hascii. unfold clean_phone.
  rewrite (@filter_ascii_digits env phone Hd); [reflexivity|].
  apply Forall_forall. intros c Hc.
  rewrite forallb_forall in Hascii. now apply N.ltb_lt, Hascii.
Qed.

(** C4. For every phone string and every non-empty message,
    [send_zapi_message] posts one body whose phone is the input with all
    non-digit characters removed and with 55 put in front if and only if
    these digits are 11 or fewer and do not start with 55; so 11987654321
    becomes 5511987654321, 5511987654321 stays, and (11) 98765-4321
    becomes 5511987654321. *)
Theorem send_zapi_message_normalizes (env : Env) (phone message : str) (w : World) :
  ascii_digits env -> message <> [] ->
  let digits := filter (isdigit env) phone in
  let short_without_55 :=
    (List.length digits <= 11)%nat /\ ~ (exists rest, digits = py "55" ++ rest) in
  (exists normalized,
      send_zapi_message env phone message w =
        (Return tt, posted (ZapiSend.mk normalized message) w) /\
      (short_without_55 -> normalized = py "55" ++ digits) /\
      (~ short_without_55 -> normalized = digits)) /\
  clean_phone env (py "11987654321") = py "5511987654321" /\
  clean_phone env (py "5511987654321") = py "5511987654321" /\
  clean_phone env (py "(11) 98765-4321") = py "5511987654321".
Proof.
  intros Hd Hm digits short_without_55. split.
  - exists (clean_phone env phone). split; [now apply send_zapi_message_posts|].
    unfold clean_phone. fold digits.
    destruct (Nat.leb_spec (List.length digits) 11) as [Hlen|Hlen];
      destruct (startswith digits (py "55")) eqn:Hpre; simpl;
      unfold short_without_55; split; intros H; try reflexivity.
    + destruct H as [_ H]. exfalso. apply H. now apply startswith_prefix.
    + exfalso. apply H. split; [exact Hlen|].
      intros Hex. apply startswith_prefix in Hex. congruence.
    + lia.
    + lia.
  - repeat split; rewrite clean_phone_ascii by (exact Hd || reflexivity);
      reflexivity.
Qed.

Lemma send_zapi_message_normalizes_witness :
  exists normalized,
    send_zapi_message (demo_env no_fault wall_clock PostFailed)
                      (py "(11) 98765-4321") (py "oi") new_world =
      (Return tt, posted (ZapiSend.mk normalized (py "oi")) new_world) /\
    normalized = py "5511987654321".
Proof.
  destruct (@send_zapi_message_normalizes
              (demo_env no_fault wall_clock PostFailed)
              (py "(11) 98765-4321") (py "oi") new_world)
    as [[normalized [Hsend [Hshort _]]] _].
  - intros c Hc. unfold demo_env, isdigit, isdigit_latin1, ascii_isdigit.
    replace (c =? 178)%N with false by (symmetry; apply N.eqb_neq; lia).
    replace (c =? 179)%N with false by (symmetry; apply N.eqb_neq; lia).
    replace (c =? 185)%N with false by (symmetry; apply N.eqb_neq; lia).
    now rewrite !orb_false_r.
  - discriminate.
  - exists normalized. split; [exact Hsend|].
    apply Hshort. split.
    + vm_compute. lia.
    + intros [rest H]. vm_compute in H. discriminate.
Defined.

(** ** Properties: the completion client *)

Lemma call_openrouter_eq env history w :
  call_openrouter env history w =
    (Return match openrouter env (completion_request env history) with
            | Parsed r =>
                match OpenRouterResponse.choices r with
                | choice :: _ =>
                    Some (strip (OpenRouterMessage.content
                                   (OpenRouterChoice.message choice)))
                | [] => None
                end
            | _ => None
            end, w).
Proof.
  unfold call_openrouter, try_except, bind, openrouter_exchange.
  fold (completion_request env history).
  destruct (openrouter env (completion_request env history)) as [| | | |r];
    try reflexivity.
  simpl. destruct (OpenRouterResponse.choices r); reflexivity.
Qed.

(** C5. For every history, [call_openrouter] returns to its caller, and
    never raises; it returns None when the request fails in transport or
    by its HTTP status, when the body is not JSON or does not validate,
    and when the parsed response has an empty list of choices; it returns
    a text only when the response has at least one choice, and the text
    is then the stripped content of the first. *)
Theorem call_openrouter_absent_unless_choice (env : Env)
        (history : list OpenRouterMessage.t) (w : World) :
  let answer := openrouter env (completion_request env history) in
  (exists r, call_openrouter env history w = (Return r, w)) /\
  (answer = PostFailed \/ (exists status, answer = StatusError status) \/
   answer = BodyNotJson \/ answer = BodyInvalid \/
   answer = Parsed (OpenRouterResponse.mk []) ->
   call_openrouter env history w = (Return None, w)) /\
  (forall reply w',
      call_openrouter env history w = (Return (Some reply), w') ->
      exists choice rest,
        answer = Parsed (OpenRouterResponse.mk (choice :: rest)) /\
        reply = strip (OpenRouterMessage.content (OpenRouterChoice.message choice))).
Proof.
  intros answer. rewrite call_openrouter_eq. fold answer.
  split; [eexists; reflexivity|]. split.
  - intros [H|[[status H]|[H|[H|H]]]]; rewrite H; reflexivity.
  - intros reply w' H.
    destruct answer as [| | | |[choices]]; try discriminate.
    destruct choices as [|choice rest]; [discriminate|].
    simpl in H. injection H as <- _. now exists choice, rest.
Qed.

Lemma call_openrouter_absent_unless_choice_witness :
  call_openrouter (demo_env no_fault wall_clock (StatusError 503)) [] new_world
  = (Return None, new_world).
Proof.
  apply (proj1 (proj2 (@call_openrouter_absent_unless_choice
                         (demo_env no_fault wall_clock (StatusError 503))
                         [] new_world))).
  right. left. now exists 503%Z.
Defined.

(** ** Properties: what each helper does to the world *)

Lemma grows_refl P l : grows P l l.
Proof. intros u Hu. right. now exists u. Qed.

Lemma grows_trans P l1 l2 l3 : grows P l1 l2 -> grows P l2 l3 -> grows P l1 l3.
Proof.
  intros H12 H23 u Hu. destruct (H23 u Hu) as [HP|[u2 [Hu2 E2]]]; [now left|].
  destruct (H12 u2 Hu2) as [HP|[u1 [Hu1 E1]]].
  - left. congruence.
  - right. exists u1. split; [exact Hu1 | congruence].
Qed.

Lemma round_trip_cases env w :
  (db_fault env (ticks w) = false /\
   round_trip env w = (Return (ticks w), tick w)) \/
  (db_fault env (ticks w) = true /\
   round_trip env w = (Raise OperationalError, tick (lose_transaction w))).
Proof. unfold round_trip. destruct (db_fault env (ticks w)); auto. Qed.

(** Closing a branch in which a statement failed. *)
Ltac lost :=
  let H := fresh in
  intros H; inversion H; subst; clear H; cbn;
  repeat split; auto; try (left; eexists; split; reflexivity).

Lemma get_or_create_user_frame env P name w o w' :
  get_or_create_user env P name w = (o, w') ->
  database w' = database w /\
  zapi_requests w' = zapi_requests w /\
  ((exists e, o = Raise e /\ session w' = database w) \/
   (exists u, o = Return u /\
              User.phone_number u = P /\
              chat_history (session w') = chat_history (session w) /\
              grows P (users (session w)) (users (session w')))).
Proof.
  unfold get_or_create_user, select_user_by_phone, bind, round_trip.
  destruct (db_fault env (ticks w)); [lost|].
  cbn.
  destruct (find _ (users (session w))) as [user|] eqn:Hfind.
  - apply find_some in Hfind as [Huser HP]. apply str_eqb_eq in HP.
    assert (Hkeep : (Return user, tick w) = (o, w') ->
                    database w' = database w /\
                    zapi_requests w' = zapi_requests w /\
                    ((exists e, o = Raise e /\ session w' = database w) \/
                     (exists u, o = Return u /\
                                User.phone_number u = P /\
                                chat_history (session w') = chat_history (session w) /\
                                grows P (users (session w)) (users (session w'))))).
    { intros H. inversion H; subst; cbn. repeat split; auto.
      right. exists user. repeat split; auto using grows_refl. }
    destruct (truthy name && _); [|exact Hkeep].
    destruct name as [n|]; [|exact Hkeep].
    unfold flush_user_name, refresh, bind, round_trip, ret. cbn.
    destruct (db_fault env (S (ticks w))); [lost|].
    cbn.
    destruct (db_fault env (S (S (ticks w)))); [lost|].
    intros H. inversion H; subst; cbn. repeat split; auto.
    right. eexists. split; [reflexivity|]. cbn. repeat split; auto.
    intros u Hu. apply in_map_iff in Hu as [v [Ev Hv]].
    destruct (N.eqb (User.id v) (User.id user)); subst u.
    + now left.
    + right. now exists v.
  - unfold flush_new_user, refresh, fail, bind, round_trip, ret. cbn.
    destruct (db_fault env (S (ticks w))); [lost|].
    cbn. destruct (_ || _); [lost|].
    cbn.
    destruct (db_fault env (S (S (ticks w)))); [lost|].
    intros H. inversion H; subst; cbn. repeat split; auto.
    right. eexists. split; [reflexivity|]. cbn. repeat split; auto.
    intros u Hu. apply in_app_or in Hu as [Hu|[<-|[]]].
    + right. now exists u.
    + now left.
Qed.

Lemma save_chat_message_effect env U T S w o w' :
  save_chat_message env U T S w = (o, w') ->
  database w' = database w /\
  zapi_requests w' = zapi_requests w /\
  ((exists e, o = Raise e /\ session w' = database w) \/
   (o = Return tt /\
    users (session w') = users (session w) /\
    (exists u, In u (users (session w)) /\ User.id u = U) /\
    exists row,
      chat_history (session w') = chat_history (session w) ++ [row] /\
      ChatHistory.user_id row = U /\
      ChatHistory.message row = T /\ ChatHistory.sender_type row = S)).
Proof.
  unfold save_chat_message, flush_new_chat, fail, bind, round_trip, ret.
  destruct (db_fault env (ticks w)); [lost|].
  cbn.
  destruct (has_chat_id _ _ || negb (has_user_id U _)) eqn:Hcheck; [lost|].
  apply orb_false_iff in Hcheck as [_ Hfk].
  apply negb_false_iff, has_user_id_true in Hfk. cbn in Hfk.
  intros H. inversion H; subst; cbn. repeat split; auto.
  right. repeat split; auto. eexists. repeat split; reflexivity.
Qed.

Lemma get_chat_history_effect env U N w o w' :
  get_chat_history env U N w = (o, w') ->
  database w' = database w /\
  zapi_requests w' = zapi_requests w /\
  ((exists e, o = Raise e /\ session w' = database w) \/
   (exists h, o = Return h /\ session w' = session w)).
Proof.
  unfold get_chat_history, select_recent_chat, fail, bind, round_trip, ret.
  destruct (db_fault env (ticks w)); [lost|].
  cbn. destruct (N <? 0)%Z; [lost|].
  intros H. inversion H; subst; cbn. repeat split; auto. right. eauto.
Qed.

Lemma send_zapi_message_frame env phone message w o w' :
  send_zapi_message env phone message w = (o, w') ->
  o = Return tt /\ database w' = database w /\ session w' = session w.
Proof.
  destruct message as [|c message].
  - unfold send_zapi_message, ret. simpl. intros H. now inversion H.
  - rewrite send_zapi_message_posts by discriminate.
    intros H. now inversion H.
Qed.

(** ** Properties: the pipeline *)

(** The top-level guard: no exception leaves [process_incoming_message]. *)
Lemma process_incoming_message_returns env phone name text w o w' :
  process_incoming_message env phone name text w = (o, w') -> o = Return tt.
Proof.
  unfold process_incoming_message, try_except at 1.
  destruct (bind _ _ w) as [[[]|e] w1].
  - intros H. now inversion H.
  - unfold try_except.
    rewrite send_zapi_message_posts by discriminate.
    intros H. now inversion H.
Qed.

Lemma guard_effect env phone w1 :
  try_except (send_zapi_message env phone internal_error_text)
             (fun _ => ret tt) w1
  = (Return tt, posted (ZapiSend.mk (clean_phone env phone) internal_error_text) w1).
Proof.
  unfold try_except. now rewrite send_zapi_message_posts by discriminate.
Qed.

(** What one run of the pipeline does, whatever happens: it returns,
    posts one body and leaves the database alone; and either a statement
    failed, the session is back at what is committed and the body is the
    internal error text, or the user was resolved and one or two rows
    were added to the history. *)
Lemma process_incoming_message_effect env phone name text w o w' :
  process_incoming_message env phone name text w = (o, w') ->
  o = Return tt /\
  database w' = database w /\
  exists msg,
    msg <> [] /\
    zapi_requests w' =
      zapi_requests w ++ [ZapiSend.mk (clean_phone env phone) msg] /\
    ((session w' = database w /\ msg = internal_error_text) \/
     (exists user w1 added,
         get_or_create_user env phone name w = (Return user, w1) /\
         users (session w') = users (session w1) /\
         chat_history (session w') = chat_history (session w) ++ added /\
         (1 <= List.length added <= 2)%nat /\
         Forall (fun row =>
                   (ChatHistory.sender_type row = USER /\
                    ChatHistory.message row = text)
                   \/ (ChatHistory.sender_type row = AI /\
                       ChatHistory.message row = msg))
                added)).
Proof.
  assert (Hfailed : forall w1,
             database w1 = database w ->
             zapi_requests w1 = zapi_requests w ->
             session w1 = database w ->
             try_except (send_zapi_message env phone internal_error_text)
                        (fun _ => ret tt) w1 = (o, w') ->
             o = Return tt /\
             database w' = database w /\
             exists msg,
               msg <> [] /\
               zapi_requests w' =
                 zapi_requests w ++ [ZapiSend.mk (clean_phone env phone) msg] /\
               ((session w' = database w /\ msg = internal_error_text) \/
                (exists user w1 added,
                    get_or_create_user env phone name w = (Return user, w1) /\
                    users (session w') = users (session w1) /\
                    chat_history (session w') = chat_history (session w) ++ added /\
                    (1 <= List.length added <= 2)%nat /\
                    Forall (fun row =>
                              (ChatHistory.sender_type row = USER /\
                               ChatHistory.message row = text)
                              \/ (ChatHistory.sender_type row = AI /\
                                  ChatHistory.message row = msg))
                           added))).
  { intros w1 Hd Hz Hs. rewrite guard_effect. intros E. inversion E; subst.
    split; [reflexivity|]. split; [exact Hd|].
    exists internal_error_text. split; [discriminate|]. cbn.
    split; [now rewrite Hz|]. left. auto. }
  unfold process_incoming_message, try_except at 1, bind.
  destruct (get_or_create_user env phone name w) as [o1 w1] eqn:H1.
  pose proof (get_or_create_user_frame _ _ _ _ H1)
    as (Hd1 & Hz1 & [(e1 & -> & Hs1)|(user & -> & _ & Hc1 & _)]).
  { now apply Hfailed. }
  destruct (save_chat_message env (User.id user) text USER w1) as [o2 w2] eqn:H2.
  apply save_chat_message_effect in H2
    as (Hd2 & Hz2 & [(e2 & -> & Hs2)|(-> & Hu2 & _ & row1 & Hc2 & _ & Hm1 & Hk1)]).
  { apply Hfailed; congruence. }
  destruct (get_chat_history env (User.id user) _ w2) as [o3 w3] eqn:H3.
  apply get_chat_history_effect in H3
    as (Hd3 & Hz3 & [(e3 & -> & Hs3)|(h & -> & Hs3')]).
  { apply Hfailed; congruence. }
  rewrite call_openrouter_eq.
  assert (Hapology :
            (let (o0, w'0) := send_zapi_message env phone fallback_apology w3 in
             match o0 with
             | Return a => (Return a, w'0)
             | Raise _ =>
                 try_except (send_zapi_message env phone internal_error_text)
                            (fun _ => ret tt) w'0
             end) = (o, w') ->
            o = Return tt /\
            database w' = database w /\
            exists msg,
              msg <> [] /\
              zapi_requests w' =
                zapi_requests w ++ [ZapiSend.mk (clean_phone env phone) msg] /\
              ((session w' = database w /\ msg = internal_error_text) \/
               (exists user0 w0 added,
                   (Return user, w1) = (Return user0, w0) /\
                   users (session w') = users (session w0) /\
                   chat_history (session w') = chat_history (session w) ++ added /\
                   (1 <= List.length added <= 2)%nat /\
                   Forall (fun row =>
                             (ChatHistory.sender_type row = USER /\
                              ChatHistory.message row = text)
                             \/ (ChatHistory.sender_type row = AI /\
                                 ChatHistory.message row = msg))
                          added))).
  { rewrite send_zapi_message_posts by discriminate.
    intros E. inversion E; subst.
    split; [reflexivity|]. split; [cbn; congruence|].
    exists fallback_apology. split; [discriminate|]. cbn.
    split; [congruence|]. right. exists user, w1, [row1].
    split; [reflexivity|]. split; [congruence|].
    split; [rewrite Hs3', Hc2, Hc1; reflexivity|].
    split; [cbn; lia|]. constructor; [now left | constructor]. }
  destruct (match openrouter env _ with Parsed _ => _ | _ => None end)
    as [[|c reply]|]; cbn [nonempty]; try exact Hapology.
  destruct (save_chat_message env (User.id user) (c :: reply) AI w3)
    as [o4 w4] eqn:H4.
  apply save_chat_message_effect in H4
    as (Hd4 & Hz4 & [(e4 & -> & Hs4)|(-> & Hu4 & _ & row2 & Hc4 & _ & Hm2 & Hk2)]).
  { apply Hfailed; congruence. }
  rewrite send_zapi_message_posts by discriminate.
  intros E. inversion E; subst.
  split; [reflexivity|]. split; [cbn; congruence|].
  exists (c :: reply). split; [discriminate|]. cbn.
  split; [congruence|]. right. exists user, w1, [row1; row2].
  split; [reflexivity|]. split; [congruence|].
  split; [rewrite Hc4, Hs3', Hc2, Hc1, <- app_assoc; reflexivity|].
  split; [cbn; lia|].
  constructor; [now left|]. constructor; [now right | constructor].
Qed.

(** The run in which the first three steps return and the completion
    client hands back nothing that counts as a reply. *)
Lemma pipeline_fallback env phone name text w user w1 w2 history_db w3 r :
  get_or_create_user env phone name w = (Return user, w1) ->
  save_chat_message env (User.id user) text USER w1 = (Return tt, w2) ->
  get_chat_history env (User.id user) (CONTEXT_MESSAGE_COUNT (settings env)) w2
  = (Return history_db, w3) ->
  call_openrouter env (history_for_ai history_db) w3 = (Return r, w3) ->
  truthy r = false ->
  exists row,
    process_incoming_message env phone name text w =
      (Return tt, posted (ZapiSend.mk (clean_phone env phone) fallback_apology) w3) /\
    zapi_requests w3 = zapi_requests w /\
    chat_history (session w3) = chat_history (session w) ++ [row] /\
    ChatHistory.sender_type row = USER /\
    ChatHistory.message row = text.
Proof.
  intros H1 H2 H3 H4 Hr.
  pose proof (get_or_create_user_frame _ _ _ _ H1)
    as (_ & Hz1 & [(e1 & He1 & _)|(u & _ & _ & Hc1 & _)]); [discriminate|].
  pose proof (save_chat_message_inv _ _ _ _ _ H2)
    as (row & _ & Hmsg & Hkind & Hs2 & _ & Hz2).
  pose proof (get_chat_history_inv _ _ _ _ H3) as (_ & -> & _).
  exists row. split; [|repeat split; simpl; try congruence].
  - unfold process_incoming_message, try_except at 1, bind.
    rewrite H1, H2, H3, H4.
    destruct r as [[|c reply]|]; try discriminate; cbn [nonempty];
      rewrite send_zapi_message_posts by discriminate; reflexivity.
  - rewrite Hs2. simpl. congruence.
Qed.

(** C6. For every pipeline run in which the user is resolved, the inbound
    message is appended, the history is read and the completion call then
    produces no reply, [process_incoming_message] posts the fixed apology
    to the user's phone as its only request to the gateway and leaves the
    history as it was before the run plus the one inbound USER message:
    no AI message is appended and the apology is not stored. *)
Theorem no_reply_relays_apology (env : Env) (phone : str) (name : option str)
        (text : str) (w : World) (user : User.t) (w1 w2 w3 : World)
        (history_db : list ChatHistory.t) :
  get_or_create_user env phone name w = (Return user, w1) ->
  save_chat_message env (User.id user) text USER w1 = (Return tt, w2) ->
  get_chat_history env (User.id user) (CONTEXT_MESSAGE_COUNT (settings env)) w2
  = (Return history_db, w3) ->
  call_openrouter env (history_for_ai history_db) w3 = (Return None, w3) ->
  exists w' row,
    process_incoming_message env phone name text w = (Return tt, w') /\
    zapi_requests w' =
      zapi_requests w ++ [ZapiSend.mk (clean_phone env phone) fallback_apology] /\
    chat_history (session w') = chat_history (session w) ++ [row] /\
    ChatHistory.sender_type row = USER /\
    ChatHistory.message row = text /\
    filter (fun c => is_AI (ChatHistory.sender_type c)) (chat_history (session w'))
    = filter (fun c => is_AI (ChatHistory.sender_type c)) (chat_history (session w)).
Proof.
  intros H1 H2 H3 H4.
  destruct (@pipeline_fallback env phone name text w user w1 w2 history_db w3
                               None H1 H2 H3 H4 eq_refl)
    as (row & Hrun & Hz & Hc & Hkind & Hmsg).
  eexists; exists row. split; [exact Hrun|]. simpl.
  repeat split; auto.
  - now rewrite Hz.
  - rewrite Hc, filter_app. simpl. rewrite Hkind. simpl. apply app_nil_r.
Qed.

Lemma no_reply_relays_apology_witness :
  exists w' row,
    process_incoming_message silent_env (py "11987654321") None (py "oi") new_world
    = (Return tt, w') /\
    zapi_requests w' =
      zapi_requests new_world
        ++ [ZapiSend.mk (clean_phone silent_env (py "11987654321")) fallback_apology] /\
    chat_history (session w') = chat_history (session new_world) ++ [row] /\
    ChatHistory.sender_type row = USER /\
    ChatHistory.message row = py "oi" /\
    filter (fun c => is_AI (ChatHistory.sender_type c)) (chat_history (session w'))
    = filter (fun c => is_AI (ChatHistory.sender_type c))
             (chat_history (session new_world)).
Proof.
  eapply (@no_reply_relays_apology silent_env (py "11987654321") None (py "oi")
                                   new_world);
    vm_compute; reflexivity.
Defined.

(** C10. For every pipeline run in which the user is resolved, the
    inbound message is appended, the history is read and the completion
    endpoint answers with a first choice whose content is empty or white
    space only, [call_openrouter] returns the empty text, and
    [process_incoming_message] takes it for no reply: it posts the fixed
    apology as its only request to the gateway and leaves the history as
    it was before the run plus the one inbound USER message, with no AI
    message appended. *)
Theorem blank_reply_relays_apology (env : Env) (phone : str) (name : option str)
        (text : str) (w : World) (user : User.t) (w1 w2 w3 : World)
        (history_db : list ChatHistory.t)
        (choice : OpenRouterChoice.t) (rest : list OpenRouterChoice.t) :
  get_or_create_user env phone name w = (Return user, w1) ->
  save_chat_message env (User.id user) text USER w1 = (Return tt, w2) ->
  get_chat_history env (User.id user) (CONTEXT_MESSAGE_COUNT (settings env)) w2
  = (Return history_db, w3) ->
  openrouter env (completion_request env (history_for_ai history_db))
  = Parsed (OpenRouterResponse.mk (choice :: rest)) ->
  forallb isspace (OpenRouterMessage.content (OpenRouterChoice.message choice))
  = true ->
  call_openrouter env (history_for_ai history_db) w3 = (Return (Some []), w3) /\
  exists w' row,
    process_incoming_message env phone name text w = (Return tt, w') /\
    zapi_requests w' =
      zapi_requests w ++ [ZapiSend.mk (clean_phone env phone) fallback_apology] /\
    chat_history (session w') = chat_history (session w) ++ [row] /\
    ChatHistory.sender_type row = USER /\
    ChatHistory.message row = text /\
    filter (fun c => is_AI (ChatHistory.sender_type c)) (chat_history (session w'))
    = filter (fun c => is_AI (ChatHistory.sender_type c)) (chat_history (session w)).
Proof.
  intros H1 H2 H3 Hanswer Hblank.
  assert (H4 : call_openrouter env (history_for_ai history_db) w3
               = (Return (Some []), w3)).
  { rewrite call_openrouter_eq, Hanswer. simpl. now rewrite strip_blank. }
  split; [exact H4|].
  destruct (@pipeline_fallback env phone name text w user w1 w2 history_db w3
                               (Some []) H1 H2 H3 H4 eq_refl)
    as (row & Hrun & Hz & Hc & Hkind & Hmsg).
  eexists; exists row. split; [exact Hrun|]. simpl.
  repeat split; auto.
  - now rewrite Hz.
  - rewrite Hc, filter_app. simpl. rewrite Hkind. simpl. apply app_nil_r.
Qed.

Lemma blank_reply_relays_apology_witness :
  exists w' row,
    process_incoming_message blank_env (py "11987654321") None (py "oi") new_world
    = (Return tt, w') /\
    zapi_requests w' =
      zapi_requests new_world
        ++ [ZapiSend.mk (clean_phone blank_env (py "11987654321")) fallback_apology] /\
    chat_history (session w') = chat_history (session new_world) ++ [row] /\
    ChatHistory.sender_type row = USER /\
    ChatHistory.message row = py "oi" /\
    filter (fun c => is_AI (ChatHistory.sender_type c)) (chat_history (session w'))
    = filter (fun c => is_AI (ChatHistory.sender_type c))
             (chat_history (session new_world)).
Proof.
  edestruct (@blank_reply_relays_apology
               blank_env (py "11987654321") None (py "oi") new_world)
    as [_ Hrun].
  1-5: vm_compute; reflexivity.
  exact Hrun.
Defined.

(** ** Properties: the webhook and the session dependency *)

Lemma handle_zapi_webhook_inv p w o w' :
  handle_zapi_webhook (JsonPayload p) w = (o, w') ->
  w' = w /\
  exists r, o = Return r /\
            forall t, In t (snd r) -> task_phone t = ZapiWebhookPayload.phone p.
Proof.
  unfold handle_zapi_webhook, bind, try_except, request_json, model_validate, ret.
  simpl.
  destruct (ZapiWebhookPayload.isGroupMessage p) as [[|]|];
    try (intros H; inversion H; subst; split; [reflexivity|];
         eexists; split; [reflexivity | intros t []]).
  all: destruct (ZapiWebhookPayload.message p) as [m|];
    try (intros H; inversion H; subst; split; [reflexivity|];
         eexists; split; [reflexivity | intros t []]).
  all: destruct (negb (truthy (ZapiMessagePayload.text m)));
    try (intros H; inversion H; subst; split; [reflexivity|];
         eexists; split; [reflexivity | intros t []]).
  all: destruct (negb (nonempty (strip _)));
    intros H; inversion H; subst; (split; [reflexivity|]);
    eexists; (split; [reflexivity|]); simpl; intros t Ht;
    try contradiction; destruct Ht as [<-|[]]; reflexivity.
Qed.

Lemma run_background_frame env P base tasks :
  (forall t, In t tasks -> task_phone t = P) ->
  forall w o w',
    grows P base (users (session w)) ->
    grows P base (users (database w)) ->
    run_background env tasks w = (o, w') ->
    o = Return tt /\
    database w' = database w /\
    grows P base (users (session w')).
Proof.
  induction tasks as [|t tasks IH]; intros HP w o w' Hs Hd; simpl.
  - unfold ret. intros H. inversion H; subst. auto.
  - unfold bind.
    destruct (process_incoming_message env (task_phone t) (task_name t)
                                       (task_user_message t) w)
      as [o1 w1] eqn:H1.
    apply process_incoming_message_effect in H1
      as (-> & Hd1 & msg & _ & _ &
          [[Hs1 _]|(user & w0 & added & Hgoc & Hu1 & _)]).
    + intros H.
      assert (A1 : grows P base (users (session w1))) by now rewrite Hs1.
      assert (A2 : grows P base (users (database w1))) by now rewrite Hd1.
      destruct (IH (fun t' Ht' => HP t' (or_intror Ht')) w1 o w' A1 A2 H)
        as (Ho & Hd' & Hg').
      split; [exact Ho|]. split; [congruence | exact Hg'].
    + apply get_or_create_user_frame in Hgoc
        as (_ & _ & [(e & He & _)|(u & _ & _ & _ & Hg)]); [discriminate|].
      rewrite (HP t (or_introl eq_refl)) in Hg.
      intros H.
      assert (A1 : grows P base (users (session w1)))
        by (rewrite Hu1; exact (@grows_trans P base (users (session w)) _ Hs Hg)).
      assert (A2 : grows P base (users (database w1))) by now rewrite Hd1.
      destruct (IH (fun t' Ht' => HP t' (or_intror Ht')) w1 o w' A1 A2 H)
        as (Ho & Hd' & Hg').
      split; [exact Ho|]. split; [congruence | exact Hg'].
Qed.

Lemma rollback_inv env w o w' :
  rollback env w = (o, w') -> database w' = database w.
Proof.
  unfold rollback, round_trip. simpl.
  destruct (db_fault env (ticks w)); intros H; now inversion H.
Qed.

(** C8, as it holds. For every inbound webhook phone string P, the user
    that [get_or_create_user] resolves or creates has [phone_number]
    equal to P as received, and once the request is served every stored
    phone number is either P as received or a phone number that was
    stored before: the pipeline applies no normalization to what it
    stores. *)
Theorem stored_phone_is_inbound_phone (env : Env) (p : ZapiWebhookPayload.t)
        (w : World) :
  (forall name w0 user w1,
      get_or_create_user env (ZapiWebhookPayload.phone p) name w0 = (Return user, w1) ->
      User.phone_number user = ZapiWebhookPayload.phone p) /\
  (forall o w',
      post_webhook_zapi env (JsonPayload p) w = (o, w') ->
      grows (ZapiWebhookPayload.phone p) (users (database w)) (users (database w'))).
Proof.
  split.
  - intros name w0 user w1 H.
    apply get_or_create_user_frame in H
      as (_ & _ & [(e & He & _)|(u & Hu & HP & _)]); [discriminate|].
    now inversion Hu; subst.
  - intros o w'. unfold post_webhook_zapi, get_db.
    destruct (AsyncSessionFactory env); simpl;
      [|unfold raise; intros H; inversion H; subst; apply grows_refl].
    unfold bind at 1, open_session, try_except, bind at 1, bind at 1.
    destruct (handle_zapi_webhook (JsonPayload p) (set_session (database w) w))
      as [o1 w1] eqn:Hh.
    apply handle_zapi_webhook_inv in Hh as (-> & r & -> & Htasks).
    unfold bind at 1.
    destruct (run_background env (snd r) (set_session (database w) w))
      as [o2 w2] eqn:Hb.
    apply (@run_background_frame env _ (users (database w)) _ Htasks) in Hb
      as (-> & Hd2 & Hg2); [| apply grows_refl | apply grows_refl].
    simpl in Hd2.
    unfold ret at 1, bind at 1, commit, bind at 1, round_trip.
    destruct (db_fault env (ticks w2)); simpl.
    + unfold bind.
      destruct (rollback env (tick (lose_transaction w2))) as [[[]|e1] w3] eqn:Hr;
        apply rollback_inv in Hr; unfold raise; intros H; inversion H; subst;
          simpl in Hr; rewrite Hr, Hd2; apply grows_refl.
    + unfold ret. intros H. inversion H; subst. simpl. exact Hg2.
Qed.

Lemma stored_phone_is_inbound_phone_witness :
  exists o w',
    post_webhook_zapi quiet_env (inbound (py "(11) 98765-4321") (py "ola")) new_world
    = (o, w') /\
    grows (py "(11) 98765-4321") (users (database new_world)) (users (database w')).
Proof.
  do 2 eexists. split; [vm_compute; reflexivity|].
  eapply (proj2 (@stored_phone_is_inbound_phone
                   quiet_env (inbound_payload (py "(11) 98765-4321") (py "ola"))
                   new_world)).
  vm_compute. reflexivity.
Defined.

(** C8, as stated, fails. For a webhook from (11) 98765-4321 on an empty
    database, [get_or_create_user] creates a user whose phone number is
    that very string, and that is the user in the database once the
    request is served: the key is not the form the relay computes,
    5511987654321, and it is not made of digits only. *)
Lemma stored_phone_not_normalized :
  exists u w1 w',
    get_or_create_user quiet_env (py "(11) 98765-4321") (Some (py "Bia")) new_world
    = (Return u, w1) /\
    post_webhook_zapi quiet_env (inbound (py "(11) 98765-4321") (py "ola")) new_world
    = (Return (status "received"), w') /\
    users (database w') = [u] /\
    User.phone_number u = py "(11) 98765-4321" /\
    clean_phone quiet_env (py "(11) 98765-4321") = py "5511987654321" /\
    User.phone_number u <> clean_phone quiet_env (py "(11) 98765-4321") /\
    forallb (isdigit quiet_env) (User.phone_number u) = false.
Proof.
  do 3 eexists. split; [vm_compute; reflexivity|].
  split; [vm_compute; reflexivity|].
  split; [reflexivity|]. split; [reflexivity|]. split; [reflexivity|].
  split; [vm_compute; discriminate | reflexivity].
Qed.

(** C9. For every payload that parses, validates and is flagged as a
    group message, [handle_zapi_webhook] answers 200 with the body
    [{"status": "ignored_group_message"}], queues no task and leaves the
    world as it is; served through the route, the request commits nothing
    and posts nothing, so that no user and no message is created, and
    with a session factory and an answering server the route returns that
    very response. *)
Theorem group_message_ignored (env : Env) (p : ZapiWebhookPayload.t) (w : World) :
  ZapiWebhookPayload.isGroupMessage p = Some true ->
  handle_zapi_webhook (JsonPayload p) w =
    (Return (mkResponse 200 [("status"%string, "ignored_group_message"%string)], []), w)
  /\
  (forall o w',
      post_webhook_zapi env (JsonPayload p) w = (o, w') ->
      users (database w') = users (database w) /\
      chat_history (database w') = chat_history (database w) /\
      zapi_requests w' = zapi_requests w)
  /\
  (AsyncSessionFactory env = true -> db_fault env (ticks w) = false ->
   exists w',
     post_webhook_zapi env (JsonPayload p) w =
       (Return (mkResponse 200 [("status"%string, "ignored_group_message"%string)]), w')
     /\ database w' = database w).
Proof.
  intros Hgroup.
  assert (Hh : forall w0,
             handle_zapi_webhook (JsonPayload p) w0 =
               (Return (mkResponse 200
                          [("status"%string, "ignored_group_message"%string)], []), w0)).
  { intros w0.
    unfold handle_zapi_webhook, bind, try_except, request_json, model_validate, ret.
    simpl. now rewrite Hgroup. }
  split; [apply Hh|]. split.
  - intros o w'. unfold post_webhook_zapi, get_db.
    destruct (AsyncSessionFactory env); cbn [negb];
      [|unfold raise; intros H; now inversion H].
    unfold open_session, commit, rollback.
    unfold bind, try_except, round_trip, ret, raise.
    rewrite Hh. cbn.
    destruct (db_fault env (ticks w)); cbn;
      [destruct (db_fault env (S (ticks w)))|];
      intros H; inversion H; subst; auto.
  - intros Hfactory Hfault. unfold post_webhook_zapi, get_db.
    rewrite Hfactory. cbn [negb].
    unfold open_session, commit, rollback.
    unfold bind, try_except, round_trip, ret, raise.
    rewrite Hh. cbn. rewrite Hfault. eexists. split; reflexivity.
Qed.

Lemma group_message_ignored_witness :
  handle_zapi_webhook (JsonPayload group_payload) ana_world =
    (Return (mkResponse 200 [("status"%string, "ignored_group_message"%string)], []),
     ana_world).
Proof.
  apply (proj1 (@group_message_ignored quiet_env group_payload ana_world eq_refl)).
Defined.

Lemma rollback_frame env w o w' :
  rollback env w = (o, w') ->
  database w' = database w /\ zapi_requests w' = zapi_requests w.
Proof.
  unfold rollback, round_trip. simpl.
  destruct (db_fault env (ticks w)); intros H; now inversion H.
Qed.

(** The two ways out of [get_db]: the body returned and its session was
    committed, or an exception is raised and nothing was. *)
Lemma get_db_cases env {A} (body : io A) w o w' :
  AsyncSessionFactory env = true ->
  get_db env body w = (o, w') ->
  exists o1 w1,
    body (set_session (database w) w) = (o1, w1) /\
    ((exists a, o1 = Return a /\ o = Return a /\
                w' = set_database (session w1) (tick w1)) \/
     ((exists e, o = Raise e) /\
      database w' = database w1 /\ zapi_requests w' = zapi_requests w1)).
Proof.
  intros Hfactory. unfold get_db. rewrite Hfactory. cbn [negb].
  unfold bind at 1, open_session, try_except, bind at 1.
  destruct (body (set_session (database w) w)) as [[a|e] w1].
  - unfold bind at 1, commit, bind at 1.
    destruct (round_trip_cases env w1) as [[_ E]|[_ E]]; rewrite E.
    + unfold ret. intros H. inversion H; subst.
      do 2 eexists. split; [reflexivity|]. left. eauto.
    + unfold bind, raise.
      destruct (rollback env (tick (lose_transaction w1))) as [[[]|e1] w2] eqn:Hr;
        apply rollback_frame in Hr as [Hd Hz]; intros H; inversion H; subst;
          do 2 eexists; (split; [reflexivity|]); right; eauto.
  - unfold bind, raise.
    destruct (rollback env w1) as [[[]|e1] w2] eqn:Hr;
      apply rollback_frame in Hr as [Hd Hz]; intros H; inversion H; subst;
        do 2 eexists; (split; [reflexivity|]); right; eauto.
Qed.



(** * Further properties of the code *)

(** ** [str.strip] *)

Lemma lstrip_split (s : str) :
  exists blank, s = blank ++ lstrip s /\ forallb isspace blank = true.
Proof.
  induction s as [|c s [blank [E Hb]]]; simpl.
  - now exists [].
  - destruct (isspace c) eqn:Hc.
    + exists (c :: blank). simpl. rewrite Hc, Hb. split; [congruence | reflexivity].
    + now exists [].
Qed.

Lemma lstrip_head (s : str) :
  match lstrip s with c :: _ => isspace c = false | [] => True end.
Proof.
  induction s as [|c s IH]; simpl; [exact I|].
  destruct (isspace c) eqn:Hc; [exact IH | exact Hc].
Qed.

Lemma lstrip_fixed (s : str) :
  match s with c :: _ => isspace c = false | [] => True end -> lstrip s = s.
Proof. destruct s as [|c s]; simpl; [reflexivity | now intros ->]. Qed.

Lemma strip_trimmed (s : str) : trimmed (strip s).
Proof.
  unfold trimmed, strip. rewrite rev_involutive. split; [|apply lstrip_head].
  destruct (lstrip_split (rev (lstrip s))) as [blank [E _]].
  pose proof (lstrip_head s) as Hhead.
  assert (Ea : lstrip s = rev (lstrip (rev (lstrip s))) ++ rev blank).
  { rewrite <- rev_app_distr, <- E. symmetry. apply rev_involutive. }
  destruct (rev (lstrip (rev (lstrip s)))) as [|c t]; [exact I|].
  rewrite Ea in Hhead. exact Hhead.
Qed.

Lemma strip_fixed (s : str) : trimmed s -> strip s = s.
Proof.
  intros [Hfront Hback]. unfold strip.
  rewrite (lstrip_fixed s Hfront), (lstrip_fixed (rev s) Hback).
  apply rev_involutive.
Qed.

Lemma strip_idempotent (s : str) : strip (strip s) = strip s.
Proof. apply strip_fixed, strip_trimmed. Qed.

(** ** The webhook handler *)

(** X8. [handle_zapi_webhook] never changes the world. It raises, and
    then HTTPException 400, exactly on a body that is not JSON; in every
    other case it answers 200. It queues at most one task, and only
    together with the status received; the task carries the phone and
    the sender name of the payload unchanged and the stripped text, which
    is not empty and has no white space at either end. *)
Theorem handle_zapi_webhook_queues (request : RequestBody) (w : World) :
  (request = NotJson ->
   handle_zapi_webhook request w = (Raise (HTTPException 400), w)) /\
  (request <> NotJson ->
   exists resp tasks,
     handle_zapi_webhook request w = (Return (resp, tasks), w) /\
     status_code resp = 200%Z /\
     (tasks = [] <-> content resp <> [("status"%string, "received"%string)]) /\
     forall t, In t tasks ->
       tasks = [t] /\
       task_user_message t <> [] /\
       trimmed (task_user_message t) /\
       exists p m text,
         request = JsonPayload p /\
         ZapiWebhookPayload.isGroupMessage p <> Some true /\
         ZapiWebhookPayload.message p = Some m /\
         ZapiMessagePayload.text m = Some text /\
         task_phone t = ZapiWebhookPayload.phone p /\
         task_name t = ZapiWebhookPayload.senderName p /\
         task_user_message t = strip text).
Proof.
  split.
  - intros ->. reflexivity.
  - intros Hjson.
    assert (Hnone : forall s : string,
               s <> "received"%string ->
               exists resp tasks,
                 (Return (status s, @nil BackgroundTask), w) = (Return (resp, tasks), w) /\
                 status_code resp = 200%Z /\
                 (tasks = [] <-> content resp <> [("status"%string, "received"%string)]) /\
                 forall t, In t tasks ->
                   tasks = [t] /\
                   task_user_message t <> [] /\
                   trimmed (task_user_message t) /\
                   exists p m text,
                     request = JsonPayload p /\
                     ZapiWebhookPayload.isGroupMessage p <> Some true /\
                     ZapiWebhookPayload.message p = Some m /\
                     ZapiMessagePayload.text m = Some text /\
                     task_phone t = ZapiWebhookPayload.phone p /\
                     task_name t = ZapiWebhookPayload.senderName p /\
                     task_user_message t = strip text).
    { intros s Hs. exists (status s), []. split; [reflexivity|].
      split; [reflexivity|]. split; [|intros t []].
      split; [|reflexivity]. intros _ E. simpl in E. congruence. }
    destruct request as [| |p]; [contradiction| |].
    + apply (Hnone "processing_error"%string). discriminate.
    + unfold handle_zapi_webhook, bind, try_except, request_json, model_validate, ret.
      cbn [fst snd].
      destruct (ZapiWebhookPayload.isGroupMessage p) as [[|]|] eqn:Hgroup.
      1: apply (Hnone "ignored_group_message"%string); discriminate.
      all: destruct (ZapiWebhookPayload.message p) as [m|] eqn:Hm;
        [|apply (Hnone "ignored_no_text"%string); discriminate].
      all: destruct (ZapiMessagePayload.text m) as [text|] eqn:Ht; cbn [truthy negb];
        [|apply (Hnone "ignored_no_text"%string); discriminate].
      all: destruct (nonempty text) eqn:Hne; cbn [negb];
        [|apply (Hnone "ignored_no_text"%string); discriminate].
      all: destruct (nonempty (strip text)) eqn:Hs; cbn [negb];
        [|apply (Hnone "ignored_empty_text"%string); discriminate].
      all: eexists; eexists; (split; [reflexivity|]); (split; [reflexivity|]);
        (split; [split; [discriminate | intros H; now contradiction H]|]);
        intros t [<-|[]]; (split; [reflexivity|]); cbn [task_user_message];
        (split; [intros E; rewrite E in Hs; discriminate|]);
        (split; [apply strip_trimmed|]);
        exists p, m, text; rewrite Hgroup; repeat split; auto; discriminate.
Qed.

Lemma handle_zapi_webhook_queues_witness :
  exists resp tasks,
    handle_zapi_webhook (inbound (py "5511987654321") (py "  oi ")) new_world
    = (Return (resp, tasks), new_world) /\
    status_code resp = 200%Z.
Proof.
  destruct (proj2 (handle_zapi_webhook_queues
                     (inbound (py "5511987654321") (py "  oi ")) new_world))
    as (resp & tasks & Hrun & Hcode & _).
  - discriminate.
  - now exists resp, tasks.
Defined.

(** X9. A body that is not JSON commits nothing and posts nothing, and
    the route ends in an exception; with a session factory and a server
    that answers the rollback, the exception is HTTPException 400. *)
Theorem not_json_is_bad_request (env : Env) (w : World) :
  (forall o w',
      post_webhook_zapi env NotJson w = (o, w') ->
      database w' = database w /\ zapi_requests w' = zapi_requests w /\
      exists e, o = Raise e) /\
  (AsyncSessionFactory env = true -> db_fault env (ticks w) = false ->
   exists w', post_webhook_zapi env NotJson w = (Raise (HTTPException 400), w')).
Proof.
  split.
  - intros o w' H. unfold post_webhook_zapi in H.
    destruct (AsyncSessionFactory env) eqn:Hfactory.
    + apply get_db_cases in H as (o1 & w1 & Hbody & Hcases); [|exact Hfactory].
      cbn in Hbody. inversion Hbody; subst o1 w1.
      destruct Hcases as [(a & Ha & _)|(Hraise & Hd & Hz)]; [discriminate|].
      cbn in Hd, Hz. auto.
    + unfold get_db in H. rewrite Hfactory in H. cbn in H.
      inversion H; subst. eauto.
  - intros Hfactory Hfault. unfold post_webhook_zapi, get_db.
    rewrite Hfactory. cbn [negb].
    unfold open_session, commit, rollback, handle_zapi_webhook, request_json.
    unfold bind, try_except, round_trip, ret, raise. cbn.
    rewrite Hfault. eexists. reflexivity.
Qed.

Lemma not_json_is_bad_request_witness :
  exists w', post_webhook_zapi quiet_env NotJson ana_world
             = (Raise (HTTPException 400), w').
Proof.
  apply (proj2 (not_json_is_bad_request quiet_env ana_world)); reflexivity.
Defined.

(** ** The relay client *)

Lemma filter_digits_all env (s : str) :
  forallb (isdigit env) (filter (isdigit env) s) = true.
Proof.
  apply forallb_forall. intros c Hc. now apply filter_In in Hc as [_ Hc].
Qed.

Lemma filter_fixed {A} (f : A -> bool) (l : list A) :
  forallb f l = true -> filter f l = l.
Proof.
  induction l as [|x l IH]; simpl; [reflexivity|].
  intros H. apply andb_true_iff in H as [Hx Hl]. now rewrite Hx, IH.
Qed.

(** X6. Under the ASCII reading of [str.isdigit], the phone that
    [send_zapi_message] computes is made of digits only, is never empty,
    starts with 55 or has more than 11 digits, and is a fixed point:
    computing it again from the result changes nothing. *)
Theorem clean_phone_idempotent (env : Env) (phone : str) :
  ascii_digits env ->
  forallb (isdigit env) (clean_phone env phone) = true /\
  clean_phone env phone <> [] /\
  (startswith (clean_phone env phone) (py "55") = true \/
   (11 < List.length (clean_phone env phone))%nat) /\
  clean_phone env (clean_phone env phone) = clean_phone env phone.
Proof.
  intros Hd.
  assert (H5 : isdigit env 53 = true) by (rewrite Hd; [reflexivity | reflexivity]).
  pose proof (filter_digits_all env phone) as Hall.
  assert (Er : clean_phone env phone =
               if (List.length (filter (isdigit env) phone) <=? 11)%nat
                  && negb (startswith (filter (isdigit env) phone) (py "55"))
               then py "55" ++ filter (isdigit env) phone
               else filter (isdigit env) phone) by reflexivity.
  set (digits := filter (isdigit env) phone) in *.
  destruct ((List.length digits <=? 11)%nat && negb (startswith digits (py "55")))
    eqn:Hcond; rewrite Er; clear Er.
  - assert (Hall' : forallb (isdigit env) (py "55" ++ digits) = true).
    { rewrite forallb_app, Hall. simpl. now rewrite H5. }
    split; [exact Hall'|]. split; [discriminate|]. split; [left; reflexivity|].
    unfold clean_phone. rewrite (filter_fixed _ _ Hall').
    replace (startswith (py "55" ++ digits) (py "55")) with true by reflexivity.
    cbn [negb]. now rewrite andb_false_r.
  - split; [exact Hall|].
    assert (Hshape : startswith digits (py "55") = true \/
                     (11 < List.length digits)%nat).
    { apply andb_false_iff in Hcond. destruct Hcond as [Hlen|Hpre].
      - right. apply Nat.leb_gt in Hlen. exact Hlen.
      - left. now apply negb_false_iff in Hpre. }
    split.
    { intros E. rewrite E in Hshape. destruct Hshape as [H|H]; [discriminate|].
      simpl in H. lia. }
    split; [exact Hshape|].
    unfold clean_phone. rewrite (filter_fixed _ _ Hall). now rewrite Hcond.
Qed.

Lemma clean_phone_idempotent_witness :
  clean_phone quiet_env (clean_phone quiet_env (py "+55 (11) 98765-4321"))
  = clean_phone quiet_env (py "+55 (11) 98765-4321").
Proof.
  apply (@clean_phone_idempotent quiet_env (py "+55 (11) 98765-4321")).
  intros c Hc. unfold quiet_env, demo_env, isdigit, isdigit_latin1, ascii_isdigit.
  replace (c =? 178)%N with false by (symmetry; apply N.eqb_neq; lia).
  replace (c =? 179)%N with false by (symmetry; apply N.eqb_neq; lia).
  replace (c =? 185)%N with false by (symmetry; apply N.eqb_neq; lia).
  now rewrite !orb_false_r.
Defined.

(** X7. Whatever the gateway answers, [send_zapi_message] returns, and
    leaves the database, the session and the count of round trips alone.
    With an empty message it posts nothing; with any other it posts
    exactly one body, carrying the message as given. A phone without a
    single digit is relayed to the number 55. *)
Theorem send_zapi_message_swallows (env : Env) (phone message : str) (w : World) :
  exists w',
    send_zapi_message env phone message w = (Return tt, w') /\
    database w' = database w /\ session w' = session w /\ ticks w' = ticks w /\
    (message = [] -> zapi_requests w' = zapi_requests w) /\
    (message <> [] ->
     zapi_requests w' =
       zapi_requests w ++ [ZapiSend.mk (clean_phone env phone) message]) /\
    (forallb (fun c => negb (isdigit env c)) phone = true ->
     clean_phone env phone = py "55").
Proof.
  assert (Hnone : forallb (fun c => negb (isdigit env c)) phone = true ->
                  clean_phone env phone = py "55").
  { intros Hno. unfold clean_phone.
    rewrite filter_none; [reflexivity|].
    intros c Hc. rewrite forallb_forall in Hno. apply negb_true_iff. now apply Hno. }
  destruct message as [|c message].
  - exists w. unfold send_zapi_message, ret. simpl.
    repeat split; auto. intros H. now contradiction H.
  - eexists. rewrite send_zapi_message_posts by discriminate.
    split; [reflexivity|]. simpl. repeat split; auto. discriminate.
Qed.

Lemma send_zapi_message_swallows_witness :
  clean_phone quiet_env (py "sem numero") = py "55".
Proof.
  destruct (send_zapi_message_swallows quiet_env (py "sem numero") (py "oi") new_world)
    as (w' & _ & _ & _ & _ & _ & _ & Hnone).
  apply Hnone. reflexivity.
Defined.

(** ** The conversation store *)

Lemma map_injective_on {A B} (f : A -> B) (l : list A) (a b : A) :
  NoDup (map f l) -> In a l -> In b l -> f a = f b -> a = b.
Proof.
  induction l as [|x l IH]; simpl; intros Hnd Ha Hb E; [contradiction|].
  inversion Hnd as [|? ? Hx Hl]; subst.
  destruct Ha as [->|Ha], Hb as [->|Hb]; auto.
  - exfalso. apply Hx. rewrite E. now apply in_map.
  - exfalso. apply Hx. rewrite <- E. now apply in_map.
Qed.

Lemma NoDup_snoc {A} (l : list A) (x : A) :
  NoDup l -> ~ In x l -> NoDup (l ++ [x]).
Proof.
  intros Hl Hx. apply NoDup_app; [exact Hl | repeat constructor; intros [] | ].
  intros y Hy [<-|[]]. contradiction.
Qed.

(** X1. For a phone number that a stored user has, when the server
    answers: a missing or empty name, or the name already stored, leaves
    the row as it is and returns it; any other name is stored in the row,
    which keeps its id, phone number and creation time, and no row is
    added. A stored name is therefore never erased. *)
Theorem get_or_create_user_renames (env : Env) (w : World) (P : str)
        (name : option str) (user : User.t) :
  reliable env ->
  find (fun u => str_eqb (User.phone_number u) P) (users (session w)) = Some user ->
  (truthy name = false \/ name = User.name user ->
   get_or_create_user env P name w = (Return user, tick w)) /\
  (forall n, name = Some n -> n <> [] -> User.name user <> Some n ->
   exists user' w',
     get_or_create_user env P name w = (Return user', w') /\
     User.name user' = Some n /\
     User.id user' = User.id user /\
     User.phone_number user' = User.phone_number user /\
     User.created_at user' = User.created_at user /\
     In user' (users (session w')) /\
     List.length (users (session w')) = List.length (users (session w)) /\
     chat_history (session w') = chat_history (session w)).
Proof.
  intros Hrel Hfind.
  assert (Hstart : forall k : option User.t -> io User.t,
             bind (select_user_by_phone env P) k w = k (Some user) (tick w)).
  { intros k. unfold select_user_by_phone, bind.
    rewrite (round_trip_ok env w (Hrel _)). simpl. now rewrite Hfind. }
  split.
  - intros Hsame. unfold get_or_create_user. rewrite Hstart.
    destruct Hsame as [Hno | ->].
    + rewrite Hno. reflexivity.
    + destruct (User.name user) as [n|]; [|reflexivity].
      simpl. destruct (nonempty n); simpl; [|reflexivity].
      now rewrite str_eqb_refl.
  - intros n -> Hn Hdiff. unfold get_or_create_user. rewrite Hstart.
    assert (Hcond : truthy (Some n) &&
                    (negb (truthy (User.name user)) || differs (User.name user) n)
                    = true).
    { destruct n as [|c n]; [contradiction|]. simpl.
      destruct (User.name user) as [t|]; [|reflexivity].
      simpl. apply orb_true_iff. right. apply negb_true_iff, str_eqb_neq.
      congruence. }
    rewrite Hcond.
    unfold flush_user_name, refresh, bind, ret.
    rewrite round_trip_ok by apply Hrel. simpl.
    rewrite round_trip_ok by apply Hrel. simpl.
    do 2 eexists. split; [reflexivity|]. simpl.
    repeat split; auto.
    + apply find_some in Hfind as [Hin _].
      apply in_map_iff. exists user. split; [|exact Hin].
      now rewrite N.eqb_refl.
    + apply length_map.
Qed.

Lemma get_or_create_user_renames_witness :
  get_or_create_user quiet_env (py "5511987654321") (Some []) ana_world
  = (Return ana, tick ana_world).
Proof.
  apply (proj1 (@get_or_create_user_renames
                  quiet_env ana_world (py "5511987654321") (Some []) ana
                  (fun _ => eq_refl) eq_refl)).
  left. reflexivity.
Defined.

(** When [get_or_create_user] returns, the identifying columns of the
    rows it found are as they were, at most one row was added, and ids
    and phone numbers are still unique. *)
Lemma get_or_create_user_keys env P name w u w' :
  keys_unique (session w) ->
  get_or_create_user env P name w = (Return u, w') ->
  keys_unique (session w') /\
  exists added,
    map key (users (session w')) = map key (users (session w)) ++ added /\
    (List.length added <= 1)%nat /\
    (forall k, In k added -> snd k = P).
Proof.
  intros [Hids Hphones].
  assert (Hsame : forall t, (Return t, tick w) = (Return u, w') ->
                  keys_unique (session w') /\
                  exists added,
                    map key (users (session w')) = map key (users (session w)) ++ added /\
                    (List.length added <= 1)%nat /\
                    (forall k, In k added -> snd k = P)).
  { intros t H. inversion H; subst. cbn. split; [now split|].
    exists []. rewrite app_nil_r. cbn. repeat split; auto. intros k []. }
  unfold get_or_create_user, select_user_by_phone, bind, round_trip.
  destruct (db_fault env (ticks w)); [intros H; discriminate H|].
  cbn.
  destruct (find _ (users (session w))) as [user|] eqn:Hfind.
  - apply find_some in Hfind as [Huser HP].
    destruct (truthy name && _); [|apply Hsame].
    destruct name as [n|]; [|apply Hsame].
    unfold flush_user_name, refresh, bind, round_trip, ret. cbn.
    destruct (db_fault env (S (ticks w))); [intros H; discriminate H|].
    cbn.
    set (upd := fun v : User.t =>
                  if N.eqb (User.id v) (User.id user)
                  then User.mk (User.id user) (User.phone_number user) (Some n)
                               (User.created_at user) (now env (S (ticks w)))
                  else v).
    assert (Hkey : map key (map upd (users (session w)))
                   = map key (users (session w))).
    { rewrite map_map. apply map_ext_in. intros v Hv. unfold upd.
      destruct (N.eqb_spec (User.id v) (User.id user)) as [E|_]; [|reflexivity].
      rewrite (map_injective_on User.id _ v user Hids Hv Huser E). reflexivity. }
    assert (Hunique : keys_unique (mkStore (map upd (users (session w)))
                                           (chat_history (session w)))).
    { unfold keys_unique. cbn.
      replace (map User.id (map upd (users (session w))))
        with (map fst (map key (map upd (users (session w)))))
        by (rewrite !map_map; reflexivity).
      replace (map User.phone_number (map upd (users (session w))))
        with (map snd (map key (map upd (users (session w)))))
        by (rewrite !map_map; reflexivity).
      rewrite Hkey, !map_map. now split. }
    destruct (db_fault env (S (S (ticks w)))); [intros H; discriminate H|].
    intros H. inversion H; subst; cbn. split; [exact Hunique|].
    exists []. rewrite app_nil_r. cbn. repeat split; auto. intros k [].
  - unfold flush_new_user, refresh, fail, bind, round_trip, ret. cbn.
    destruct (db_fault env (S (ticks w))); [intros H; discriminate H|].
    cbn.
    destruct (has_user_id _ _ || has_phone _ _) eqn:Hdup;
      [intros H; discriminate H|].
    apply orb_false_iff in Hdup as [Hnewid Hnewphone].
    cbn.
    set (row := User.mk (uuid4 env (S (ticks w))) P name
                        (now env (S (ticks w))) (now env (S (ticks w)))).
    assert (Hunique : keys_unique (mkStore (users (session w) ++ [row])
                                           (chat_history (session w)))).
    { unfold keys_unique. cbn. rewrite !map_app. cbn. split.
      - apply NoDup_snoc; [exact Hids|].
        intros Hin. apply in_map_iff in Hin as [v [E Hv]].
        exact (proj1 (has_user_id_false _ _) Hnewid v Hv E).
      - apply NoDup_snoc; [exact Hphones|].
        intros Hin. apply in_map_iff in Hin as [v [E Hv]].
        exact (proj1 (has_phone_false _ _) Hnewphone v Hv E). }
    destruct (db_fault env (S (S (ticks w)))); [intros H; discriminate H|].
    intros H. inversion H; subst; cbn. split; [exact Hunique|].
    exists [key row]. rewrite map_app. cbn. repeat split; auto.
    intros k [<-|[]]. reflexivity.
Qed.

(** X2. Whatever [get_or_create_user] comes to, ids and phone numbers
    stay unique in the session, and the database and the gateway are not
    touched. When it returns, it has deleted no user and changed no id
    and no phone number, it has added at most one row, whose phone number
    is the one asked for, and the messages are as they were. When it
    raises, also half way, after the INSERT or the UPDATE went through,
    the transaction is lost: the session is back at what is committed,
    and a row it had inserted is gone with everything else that was not
    committed. *)
Theorem get_or_create_user_keeps_keys (env : Env) (P : str) (name : option str)
        (w : World) (o : outcome User.t) (w' : World) :
  keys_unique (session w) ->
  keys_unique (database w) ->
  get_or_create_user env P name w = (o, w') ->
  keys_unique (session w') /\
  database w' = database w /\
  zapi_requests w' = zapi_requests w /\
  ((exists e, o = Raise e /\ session w' = database w) \/
   (exists u,
       o = Return u /\
       chat_history (session w') = chat_history (session w) /\
       exists added,
         map key (users (session w')) = map key (users (session w)) ++ added /\
         (List.length added <= 1)%nat /\
         (forall k, In k added -> snd k = P))).
Proof.
  intros Hs Hd H.
  pose proof (get_or_create_user_frame _ _ _ _ H)
    as (Hdb & Hz & [(e & -> & Hlost)|(u & -> & _ & Hc & _)]).
  - split; [now rewrite Hlost|]. split; [exact Hdb|]. split; [exact Hz|].
    left. eauto.
  - destruct (@get_or_create_user_keys env P name w u w' Hs H) as [Hs' Hadded].
    split; [exact Hs'|]. split; [exact Hdb|]. split; [exact Hz|].
    right. exists u. auto.
Qed.

Lemma get_or_create_user_keeps_keys_witness :
  exists o w',
    get_or_create_user (demo_env (fun k => Nat.eqb k 2) wall_clock PostFailed)
                       (py "11987654321") None ana_world = (o, w') /\
    keys_unique (session w') /\
    (exists e, o = Raise e /\ session w' = database ana_world).
Proof.
  do 2 eexists. split; [vm_compute; reflexivity|].
  destruct (@get_or_create_user_keeps_keys
              (demo_env (fun k => Nat.eqb k 2) wall_clock PostFailed)
              (py "11987654321") None ana_world
              (Raise OperationalError)
              (snd (get_or_create_user
                      (demo_env (fun k => Nat.eqb k 2) wall_clock PostFailed)
                      (py "11987654321") None ana_world)))
    as (Hkeys & _ & _ & [Hraise|(u & Hu & _)]).
  - split; simpl; repeat constructor; intros [].
  - split; simpl; repeat constructor; intros [].
  - vm_compute. reflexivity.
  - split; [exact Hkeys | exact Hraise].
  - discriminate.
Defined.

(** X3. [save_chat_message] never touches the database or the gateway.
    When it returns, it has added exactly one row at the end of the
    history, for a user that is stored and with the text and the sender
    kind it was given, and it has left the rows already there and the
    users as they were. When it raises, the transaction is lost: the
    session is back at what is committed, so that rows flushed earlier
    and not committed are gone too. For a user id that no stored user
    has it raises IntegrityError. *)
Theorem save_chat_message_appends (env : Env) (U : UUID) (T : str)
        (S : SenderTypeEnum) (w : World) :
  (forall o w',
      save_chat_message env U T S w = (o, w') ->
      database w' = database w /\
      zapi_requests w' = zapi_requests w /\
      ((exists e, o = Raise e /\ session w' = database w) \/
       (o = Return tt /\
        users (session w') = users (session w) /\
        (exists u, In u (users (session w)) /\ User.id u = U) /\
        exists row,
          chat_history (session w') = chat_history (session w) ++ [row] /\
          ChatHistory.user_id row = U /\ ChatHistory.message row = T /\
          ChatHistory.sender_type row = S))) /\
  (db_fault env (ticks w) = false ->
   (forall u, In u (users (session w)) -> User.id u <> U) ->
   exists w',
     save_chat_message env U T S w = (Raise IntegrityError, w') /\
     session w' = database w).
Proof.
  split.
  - intros o w' H. now apply save_chat_message_effect in H.
  - intros Hfault Hfk.
    unfold save_chat_message, flush_new_chat, fail, bind.
    rewrite (round_trip_ok env w Hfault). cbn.
    assert (E : has_user_id U (session w) = false) by now apply has_user_id_false.
    rewrite E, orb_true_r. eexists. split; reflexivity.
Qed.

Lemma save_chat_message_appends_witness :
  exists w',
    save_chat_message quiet_env 9%N (py "oi") USER
      (set_session (mkStore [ana] [old_message; old_message]) ana_world)
    = (Raise IntegrityError, w') /\
    session w' = database ana_world.
Proof.
  apply (proj2 (save_chat_message_appends quiet_env 9%N (py "oi") USER
                  (set_session (mkStore [ana] [old_message; old_message])
                               ana_world))).
  - reflexivity.
  - intros u [<-|[]]. vm_compute. discriminate.
Defined.

Lemma insert_desc_oldest x l :
  (forall y, In y l -> (ChatHistory.timestamp x < ChatHistory.timestamp y)%Z) ->
  insert_desc x l = l ++ [x].
Proof.
  induction l as [|y l IH]; simpl; intros Hold; [reflexivity|].
  pose proof (Hold y (or_introl eq_refl)) as Hy.
  destruct (Z.leb_spec (ChatHistory.timestamp y) (ChatHistory.timestamp x)); [lia|].
  rewrite IH; [reflexivity|]. intros z Hz. apply Hold. now right.
Qed.

Lemma order_by_desc_rev l :
  StronglySorted strictly_older_first l -> order_by_desc_timestamp l = rev l.
Proof.
  induction 1 as [|x l Hl IH Hx]; simpl; [reflexivity|].
  rewrite IH. apply insert_desc_oldest.
  intros y Hy. apply in_rev in Hy. rewrite Forall_forall in Hx. exact (Hx y Hy).
Qed.

(** X4. When the server answers and the user has no more than N
    messages, [get_chat_history] returns every one of them, each as often
    as it is stored, and nothing else; reading the history changes
    neither the session nor the database nor the gateway's record. *)
Theorem get_chat_history_complete (env : Env) (w : World) (U : UUID) (N : Z) :
  db_fault env (ticks w) = false ->
  (Z.of_nat (List.length (filter (of_user U) (chat_history (session w)))) <= N)%Z ->
  exists msgs,
    get_chat_history env U N w = (Return msgs, tick w) /\
    Permutation msgs (filter (of_user U) (chat_history (session w))) /\
    session (tick w) = session w /\ database (tick w) = database w /\
    zapi_requests (tick w) = zapi_requests w.
Proof.
  intros Hfault Hfew.
  eexists. split; [apply get_chat_history_ok; [exact Hfault | lia]|].
  split; [|repeat split].
  fold (of_user U).
  rewrite firstn_all2 by (rewrite order_by_desc_length; lia).
  rewrite <- Permutation_rev. apply order_by_desc_perm.
Qed.

Lemma get_chat_history_complete_witness :
  exists msgs,
    get_chat_history quiet_env 7%N 6%Z ana_world = (Return msgs, tick ana_world) /\
    Permutation msgs [old_message].
Proof.
  destruct (@get_chat_history_complete quiet_env ana_world 7%N 6%Z)
    as (msgs & Hrun & Hperm & _).
  - reflexivity.
  - vm_compute. discriminate.
  - now exists msgs.
Defined.

(** X5. When the server answers, N is not negative and the timestamps
    of the user's messages strictly grow along the table, what
    [get_chat_history] returns is the last N of the user's messages, in
    the order in which they were stored. *)
Theorem get_chat_history_tail (env : Env) (w : World) (U : UUID) (N : Z) :
  db_fault env (ticks w) = false -> (0 <= N)%Z ->
  StronglySorted strictly_older_first
                 (filter (of_user U) (chat_history (session w))) ->
  let rows := filter (of_user U) (chat_history (session w)) in
  get_chat_history env U N w =
    (Return (skipn (List.length rows - Z.to_nat N) rows), tick w).
Proof.
  intros Hfault HN Hsorted rows. subst rows.
  rewrite get_chat_history_ok by assumption.
  fold (of_user U).
  rewrite (order_by_desc_rev Hsorted).
  now rewrite firstn_rev, rev_involutive.
Qed.

Lemma get_chat_history_tail_witness :
  get_chat_history quiet_env 7%N 1%Z
    (set_session
       (mkStore [ana] [old_message; ChatHistory.mk 9%N 7%N (py "oi") AI 11%Z])
       ana_world)
  = (Return [ChatHistory.mk 9%N 7%N (py "oi") AI 11%Z],
     tick (set_session
             (mkStore [ana] [old_message; ChatHistory.mk 9%N 7%N (py "oi") AI 11%Z])
             ana_world)).
Proof.
  apply (@get_chat_history_tail quiet_env
           (set_session
              (mkStore [ana] [old_message; ChatHistory.mk 9%N 7%N (py "oi") AI 11%Z])
              ana_world) 7%N 1%Z).
  - reflexivity.
  - lia.
  - simpl. repeat constructor.
Defined.

(** ** The pipeline, whatever happens *)

(** X10. Every run of [process_incoming_message] returns: no exception
    leaves it. Every run posts exactly one body to the gateway, to the
    phone as the relay computes it and with a text that is not empty, and
    does not write the database. Then either a statement failed: the
    session is back at what is committed, every row of the run is gone,
    and the text posted is the internal error text; or the run added one
    or two rows to the history and removed none, each row either the
    inbound text from USER or, from AI, the very text it relays. *)
Theorem process_incoming_message_one_post (env : Env) (phone : str)
        (name : option str) (text : str) (w : World)
        (o : outcome unit) (w' : World) :
  process_incoming_message env phone name text w = (o, w') ->
  o = Return tt /\
  database w' = database w /\
  exists msg,
    msg <> [] /\
    zapi_requests w' =
      zapi_requests w ++ [ZapiSend.mk (clean_phone env phone) msg] /\
    ((session w' = database w /\ msg = internal_error_text) \/
     (exists added,
         chat_history (session w') = chat_history (session w) ++ added /\
         (1 <= List.length added <= 2)%nat /\
         Forall (fun row =>
                   (ChatHistory.sender_type row = USER /\
                    ChatHistory.message row = text)
                   \/ (ChatHistory.sender_type row = AI /\
                       ChatHistory.message row = msg))
                added)).
Proof.
  intros H.
  apply process_incoming_message_effect in H
    as (Ho & Hd & msg & Hmsg & Hz & [Hfailed|(user & w1 & added & _ & _ & Hrows)]).
  - split; [exact Ho|]. split; [exact Hd|]. exists msg. auto.
  - split; [exact Ho|]. split; [exact Hd|]. exists msg.
    split; [exact Hmsg|]. split; [exact Hz|]. right. exists added. exact Hrows.
Qed.

Lemma process_incoming_message_one_post_witness :
  exists o w',
    process_incoming_message faulty_env (py "11987654321") None (py "oi") new_world
    = (o, w') /\
    o = Return tt /\ database w' = database new_world /\
    session w' = database new_world.
Proof.
  do 2 eexists. split; [vm_compute; reflexivity|].
  destruct (@process_incoming_message_one_post
              faulty_env (py "11987654321") None (py "oi") new_world
              (Return tt)
              (snd (process_incoming_message faulty_env (py "11987654321") None
                                             (py "oi") new_world)))
    as (Ho & Hd & _).
  - vm_compute. reflexivity.
  - split; [exact Ho|]. split; [exact Hd | reflexivity].
Defined.

(** X11. For every run in which the user is resolved, the inbound
    message is appended, the history is read, the completion endpoint
    answers with a first choice whose stripped content is not empty, and
    the reply is appended: the history is the one before the run plus the
    inbound USER row and then the AI row, both of the resolved user; the
    AI row holds the stripped content, with no white space at either end,
    and that same text is the one body posted to the gateway. *)
Theorem reply_is_stored_and_relayed (env : Env) (phone : str) (name : option str)
        (text : str) (w : World) (user : User.t) (w1 w2 w3 w4 : World)
        (history_db : list ChatHistory.t)
        (choice : OpenRouterChoice.t) (rest : list OpenRouterChoice.t) :
  let reply := strip (OpenRouterMessage.content (OpenRouterChoice.message choice)) in
  get_or_create_user env phone name w = (Return user, w1) ->
  save_chat_message env (User.id user) text USER w1 = (Return tt, w2) ->
  get_chat_history env (User.id user) (CONTEXT_MESSAGE_COUNT (settings env)) w2
  = (Return history_db, w3) ->
  openrouter env (completion_request env (history_for_ai history_db))
  = Parsed (OpenRouterResponse.mk (choice :: rest)) ->
  reply <> [] ->
  save_chat_message env (User.id user) reply AI w3 = (Return tt, w4) ->
  exists w' inbound_row reply_row,
    process_incoming_message env phone name text w = (Return tt, w') /\
    chat_history (session w') =
      chat_history (session w) ++ [inbound_row; reply_row] /\
    ChatHistory.user_id inbound_row = User.id user /\
    ChatHistory.sender_type inbound_row = USER /\
    ChatHistory.message inbound_row = text /\
    ChatHistory.user_id reply_row = User.id user /\
    ChatHistory.sender_type reply_row = AI /\
    ChatHistory.message reply_row = reply /\
    trimmed (ChatHistory.message reply_row) /\
    zapi_requests w' = zapi_requests w ++ [ZapiSend.mk (clean_phone env phone) reply].
Proof.
  intros reply H1 H2 H3 Hanswer Hreply H4.
  pose proof (get_or_create_user_frame _ _ _ _ H1)
    as (_ & Hz1 & [(e1 & He1 & _)|(u & _ & _ & Hc1 & _)]); [discriminate|].
  pose proof (save_chat_message_inv _ _ _ _ _ H2)
    as (row1 & Hu1 & Hm1 & Hk1 & Hs2 & _ & Hz2).
  pose proof (get_chat_history_inv _ _ _ _ H3) as (_ & -> & _).
  pose proof (save_chat_message_inv _ _ _ _ _ H4)
    as (row2 & Hu2 & Hm2 & Hk2 & Hs4 & _ & Hz4).
  exists (posted (ZapiSend.mk (clean_phone env phone) reply) w4), row1, row2.
  split.
  - unfold process_incoming_message, try_except at 1, bind.
    rewrite H1, H2, H3, call_openrouter_eq, Hanswer.
    cbn [OpenRouterResponse.choices]. fold reply.
    destruct reply as [|c reply'] eqn:Er; [contradiction|].
    cbn [nonempty]. rewrite H4.
    now rewrite send_zapi_message_posts by discriminate.
  - simpl. rewrite Hs4. simpl. rewrite Hs2. simpl.
    rewrite Hc1, <- app_assoc. simpl.
    repeat split; auto.
    + rewrite Hm2. apply strip_trimmed.
    + rewrite Hm2. apply strip_trimmed.
    + simpl in Hz4. congruence.
Qed.

Lemma reply_is_stored_and_relayed_witness :
  exists w' inbound_row reply_row,
    process_incoming_message quiet_env (py "11987654321") None (py "oi") new_world
    = (Return tt, w') /\
    chat_history (session w') =
      chat_history (session new_world) ++ [inbound_row; reply_row] /\
    ChatHistory.message reply_row = py "Ola".
Proof.
  edestruct (@reply_is_stored_and_relayed
               quiet_env (py "11987654321") None (py "oi") new_world)
    as (w' & inbound_row & reply_row & Hrun & Hchat & _ & _ & _ & _ & _ & Hmsg & _).
  1-4: vm_compute; reflexivity.
  1: vm_compute; discriminate.
  1: vm_compute; reflexivity.
  exists w', inbound_row, reply_row. split; [exact Hrun|]. split; [exact Hchat|].
  rewrite Hmsg. vm_compute. reflexivity.
Defined.

(** ** The session dependency and the route *)

(** X12. Under [get_db], a body that does not commit by itself is all
    or nothing: when [get_db] returns, the body returned and the database
    is exactly what the body's session held at its end; when [get_db]
    raises, also because the factory is missing or the commit failed, the
    database is what it was before. *)
Theorem get_db_commit_or_nothing (env : Env) (A : Type) (body : io A)
        (w : World) (o : outcome A) (w' : World) :
  (forall w0 o1 w1, body w0 = (o1, w1) -> database w1 = database w0) ->
  get_db env body w = (o, w') ->
  (exists a w1,
      o = Return a /\
      body (set_session (database w) w) = (Return a, w1) /\
      database w' = session w1) \/
  ((exists e, o = Raise e) /\ database w' = database w).
Proof.
  intros Hbody H.
  destruct (AsyncSessionFactory env) eqn:Hfactory.
  - apply get_db_cases in H as (o1 & w1 & Hrun & Hcases); [|exact Hfactory].
    pose proof (Hbody _ _ _ Hrun) as Hd. simpl in Hd.
    destruct Hcases as [(a & -> & -> & ->)|(Hraise & Hd' & _)].
    + left. exists a, w1. auto.
    + right. split; [exact Hraise | congruence].
  - unfold get_db in H. rewrite Hfactory in H. cbn in H.
    inversion H; subst. right. eauto.
Qed.

Lemma get_db_commit_or_nothing_witness :
  exists o w',
    get_db quiet_env (save_chat_message quiet_env 9%N (py "oi") USER) ana_world
    = (o, w') /\
    (exists e, o = Raise e) /\ database w' = database ana_world.
Proof.
  do 2 eexists. split; [vm_compute; reflexivity|].
  destruct (@get_db_commit_or_nothing
              quiet_env unit (save_chat_message quiet_env 9%N (py "oi") USER)
              ana_world (Raise IntegrityError)
              (snd (get_db quiet_env
                           (save_chat_message quiet_env 9%N (py "oi") USER)
                           ana_world)))
    as [(a & w1 & Ho & _)|Hraise].
  - intros w0 o1 w1 H. now apply save_chat_message_effect in H.
  - vm_compute. reflexivity.
  - discriminate.
  - exact Hraise.
Defined.

Lemma handle_zapi_webhook_tasks request w o w' :
  handle_zapi_webhook request w = (o, w') ->
  w' = w /\
  ((exists e, o = Raise e) \/
   (exists resp, o = Return (resp, [])) \/
   (exists resp p text,
       request = JsonPayload p /\
       o = Return (resp, [mkTask (ZapiWebhookPayload.phone p)
                                 (ZapiWebhookPayload.senderName p) text]))).
Proof.
  destruct request as [| |p].
  - intros H. inversion H; subst. eauto.
  - intros H. inversion H; subst. eauto.
  - unfold handle_zapi_webhook, bind, try_except, request_json, model_validate, ret.
    cbn [fst snd].
    destruct (ZapiWebhookPayload.isGroupMessage p) as [[|]|].
    1: intros H; inversion H; subst; eauto.
    all: destruct (ZapiWebhookPayload.message p) as [m|];
      [|intros H; inversion H; subst; eauto].
    all: destruct (negb (truthy (ZapiMessagePayload.text m)));
      [intros H; inversion H; subst; eauto|].
    all: destruct (negb (nonempty (strip _)));
      intros H; inversion H; subst; split; auto; eauto 8.
Qed.

Lemma route_body_effect env request w0 o1 w1 :
  keys_unique (session w0) ->
  session w0 = database w0 ->
  (r <- handle_zapi_webhook request ;;
   run_background env (snd r) ;;
   ret (fst r)) w0 = (o1, w1) ->
  database w1 = database w0 /\
  keys_unique (session w1) /\
  (exists ku, map key (users (session w1)) = map key (users (session w0)) ++ ku /\
              (List.length ku <= 1)%nat) /\
  (exists added, chat_history (session w1) = chat_history (session w0) ++ added /\
                 (List.length added <= 2)%nat) /\
  (exists sent, zapi_requests w1 = zapi_requests w0 ++ sent /\
                (List.length sent <= 1)%nat).
Proof.
  intros Hkeys Hopen.
  assert (Hsame : forall w2 sent,
             database w2 = database w0 ->
             session w2 = session w0 ->
             zapi_requests w2 = zapi_requests w0 ++ sent ->
             (List.length sent <= 1)%nat ->
             database w2 = database w0 /\
             keys_unique (session w2) /\
             (exists ku, map key (users (session w2))
                         = map key (users (session w0)) ++ ku /\
                         (List.length ku <= 1)%nat) /\
             (exists added, chat_history (session w2)
                            = chat_history (session w0) ++ added /\
                            (List.length added <= 2)%nat) /\
             (exists sent, zapi_requests w2 = zapi_requests w0 ++ sent /\
                           (List.length sent <= 1)%nat)).
  { intros w2 sent Hd Hs Hz Hlen. split; [exact Hd|]. rewrite Hs.
    split; [exact Hkeys|].
    split; [exists []; rewrite app_nil_r; cbn; auto|].
    split; [exists []; rewrite app_nil_r; cbn; auto|].
    exists sent. auto. }
  unfold bind at 1.
  destruct (handle_zapi_webhook request w0) as [oh wh] eqn:Hh.
  apply handle_zapi_webhook_tasks in Hh
    as (-> & [(e & ->)|[(resp & ->)|(resp & p & text & _ & ->)]]).
  - intros H. inversion H; subst.
    apply (Hsame w1 []); cbn; auto. now rewrite app_nil_r.
  - cbn. intros H. inversion H; subst.
    apply (Hsame w1 []); cbn; auto. now rewrite app_nil_r.
  - cbn [snd fst run_background task_phone task_name task_user_message].
    unfold bind.
    destruct (process_incoming_message env (ZapiWebhookPayload.phone p)
                                       (ZapiWebhookPayload.senderName p) text w0)
      as [o2 w2] eqn:Hrun.
    apply process_incoming_message_effect in Hrun
      as (-> & Hd & msg & _ & Hz &
          [[Hlost _]|(user & w3 & added & Hgoc & Hu & Hc & Hlen & _)]).
    + unfold ret. intros H. inversion H; subst.
      apply (Hsame w1 [ZapiSend.mk (clean_phone env (ZapiWebhookPayload.phone p)) msg]);
        cbn; auto. congruence.
    + destruct (@get_or_create_user_keys env _ _ w0 user w3 Hkeys Hgoc)
        as [Hkeys3 (ku & Hku & Hkl & _)].
      unfold ret. intros H. inversion H; subst.
      split; [exact Hd|]. split.
      { unfold keys_unique. rewrite Hu. exact Hkeys3. }
      split; [exists ku; rewrite Hu; auto|].
      split; [exists added; split; [exact Hc | lia]|].
      exists [ZapiSend.mk (clean_phone env (ZapiWebhookPayload.phone p)) msg]. auto.
Qed.

(** X13. Serving any request, whatever its body and whatever fails on
    the way, keeps the database well keyed and append only: ids and phone
    numbers stay unique, no user is deleted or re-keyed and at most one
    is added, the stored messages stay where they are and at most two are
    added, and at most one body is posted to the gateway. *)
Theorem post_webhook_zapi_keeps_store (env : Env) (request : RequestBody)
        (w : World) (o : outcome Response) (w' : World) :
  keys_unique (database w) ->
  post_webhook_zapi env request w = (o, w') ->
  keys_unique (database w') /\
  (exists ku, map key (users (database w')) = map key (users (database w)) ++ ku /\
              (List.length ku <= 1)%nat) /\
  (exists added, chat_history (database w') = chat_history (database w) ++ added /\
                 (List.length added <= 2)%nat) /\
  (exists sent, zapi_requests w' = zapi_requests w ++ sent /\
                (List.length sent <= 1)%nat).
Proof.
  intros Hkeys H.
  assert (Hsame : forall sent,
             (List.length sent <= 1)%nat ->
             zapi_requests w' = zapi_requests w ++ sent ->
             database w' = database w ->
             keys_unique (database w') /\
             (exists ku, map key (users (database w'))
                         = map key (users (database w)) ++ ku /\
                         (List.length ku <= 1)%nat) /\
             (exists added, chat_history (database w')
                            = chat_history (database w) ++ added /\
                            (List.length added <= 2)%nat) /\
             (exists sent, zapi_requests w' = zapi_requests w ++ sent /\
                           (List.length sent <= 1)%nat)).
  { intros sent Hlen Hz Hd. rewrite Hd. split; [exact Hkeys|].
    split; [exists []; rewrite app_nil_r; simpl; auto|].
    split; [exists []; rewrite app_nil_r; simpl; auto|].
    exists sent. auto. }
  unfold post_webhook_zapi in H.
  destruct (AsyncSessionFactory env) eqn:Hfactory.
  - apply get_db_cases in H as (o1 & w1 & Hrun & Hcases); [|exact Hfactory].
    apply route_body_effect in Hrun
      as (Hd & Hkeys1 & Hku & Hadded & (sent & Hz & Hlen));
      [|exact Hkeys|reflexivity].
    simpl in Hd, Hku, Hadded, Hz.
    destruct Hcases as [(a & -> & -> & ->)|(_ & Hd' & Hz')].
    + simpl. split; [exact Hkeys1|]. split; [exact Hku|]. split; [exact Hadded|].
      exists sent. auto.
    + apply (Hsame sent); congruence.
  - unfold get_db in H. rewrite Hfactory in H. cbn in H. inversion H; subst.
    apply (Hsame []); simpl; auto. now rewrite app_nil_r.
Qed.

Lemma post_webhook_zapi_keeps_store_witness :
  exists o w',
    post_webhook_zapi faulty_env (inbound (py "11987654321") (py "oi")) ana_world
    = (o, w') /\
    keys_unique (database w').
Proof.
  do 2 eexists. split; [vm_compute; reflexivity|].
  eapply (@post_webhook_zapi_keeps_store
            faulty_env (inbound (py "11987654321") (py "oi")) ana_world).
  - split; simpl; repeat constructor; intros [].
  - vm_compute. reflexivity.
Defined.

(** ** The completion request *)

(** X16. For every history that [get_chat_history] returns for the
    configured context size, [call_openrouter], given the turns the
    pipeline makes of it, puts one request to the completion endpoint,
    whatever that endpoint is, and its result is read off the answer to
    that request. The request names the configured model, asks for 1000
    tokens, and holds the system prompt first and then one turn per
    message, in the same order and at most as many as the context size;
    each turn carries the text of its message, with role assistant for an
    AI message and user otherwise, so that no stored message is ever sent
    in the system role. *)
Theorem completion_request_bounded (env : Env) (U : UUID) (w : World)
        (history_db : list ChatHistory.t) (w' : World) :
  get_chat_history env U (CONTEXT_MESSAGE_COUNT (settings env)) w
  = (Return history_db, w') ->
  exists request turns,
    (forall endpoint w0,
        call_openrouter (with_openrouter env endpoint)
                        (history_for_ai history_db) w0 =
          (Return match endpoint request with
                  | Parsed r =>
                      match OpenRouterResponse.choices r with
                      | choice :: _ =>
                          Some (strip (OpenRouterMessage.content
                                         (OpenRouterChoice.message choice)))
                      | [] => None
                      end
                  | _ => None
                  end, w0)) /\
    OpenRouterRequest.model request = OPENROUTER_MODEL (settings env) /\
    OpenRouterRequest.max_tokens request = 1000%Z /\
    OpenRouterRequest.messages request =
      OpenRouterMessage.mk (py "system") (system_prompt (settings env)) :: turns /\
    (Z.of_nat (List.length turns) <= CONTEXT_MESSAGE_COUNT (settings env))%Z /\
    Forall2 (fun row turn =>
               OpenRouterMessage.content turn = ChatHistory.message row /\
               OpenRouterMessage.role turn =
                 match ChatHistory.sender_type row with
                 | AI => py "assistant"
                 | USER => py "user"
                 end)
            history_db turns /\
    Forall (fun turn => OpenRouterMessage.role turn <> py "system") turns.
Proof.
  intros H.
  pose proof (get_chat_history_inv _ _ _ _ H) as (HN & _ & Hh).
  assert (Hlen : (Z.of_nat (List.length history_db)
                  <= CONTEXT_MESSAGE_COUNT (settings env))%Z).
  { rewrite Hh, length_rev.
    pose proof (firstn_le_length
                  (Z.to_nat (CONTEXT_MESSAGE_COUNT (settings env)))
                  (order_by_desc_timestamp
                     (filter (fun c => N.eqb (ChatHistory.user_id c) U)
                             (chat_history (session w))))).
    lia. }
  exists (completion_request env (history_for_ai history_db)),
         (history_for_ai history_db).
  split.
  { intros endpoint w0. rewrite call_openrouter_eq. reflexivity. }
  split; [reflexivity|]. split; [reflexivity|]. split; [reflexivity|].
  split; [unfold history_for_ai; now rewrite length_map|].
  clear. split.
  - induction history_db as [|row l IH]; simpl; constructor; [|exact IH].
    simpl. split; [reflexivity|]. now destruct (ChatHistory.sender_type row).
  - induction history_db as [|row l IH]; simpl; constructor; [|exact IH].
    simpl. destruct (ChatHistory.sender_type row); discriminate.
Qed.

Lemma completion_request_bounded_witness :
  exists request turns,
    (forall endpoint w0,
        call_openrouter (with_openrouter quiet_env endpoint)
                        (history_for_ai [old_message]) w0 =
          (Return match endpoint request with
                  | Parsed r =>
                      match OpenRouterResponse.choices r with
                      | choice :: _ =>
                          Some (strip (OpenRouterMessage.content
                                         (OpenRouterChoice.message choice)))
                      | [] => None
                      end
                  | _ => None
                  end, w0)) /\
    OpenRouterRequest.messages request =
      OpenRouterMessage.mk (py "system") (system_prompt (settings quiet_env))
        :: turns /\
    (Z.of_nat (List.length turns) <= 6)%Z.
Proof.
  destruct (@completion_request_bounded quiet_env 7%N ana_world [old_message]
                                        (tick ana_world))
    as (request & turns & Hcall & _ & _ & Hmessages & Hlen & _).
  - reflexivity.
  - exists request, turns. auto.
Defined.

(** ** app/config.py *)

Lemma lstrip_slash_repeat (k : nat) (s : str) :
  config.lstrip_slash (repeat 47%N k ++ s) = config.lstrip_slash s.
Proof. induction k as [|k IH]; simpl; [reflexivity | exact IH]. Qed.

Lemma lstrip_slash_split (s : str) :
  exists k, s = repeat 47%N k ++ config.lstrip_slash s.
Proof.
  induction s as [|c s [k E]]; simpl.
  - now exists 0%nat.
  - destruct (N.eqb_spec c 47) as [->|_].
    + exists (S k). simpl. congruence.
    + now exists 0%nat.
Qed.

Lemma lstrip_slash_head (s : str) :
  match config.lstrip_slash s with c :: _ => c <> 47%N | [] => True end.
Proof.
  induction s as [|c s IH]; simpl; [exact I|].
  destruct (N.eqb_spec c 47) as [_|Hc]; [exact IH | exact Hc].
Qed.

(** X14. [Settings.system_prompt] reads the file at most once: whatever
    it returns is left in the cache, and from then on it returns that
    same text whatever the file has become. On the first read, a file
    that cannot be read gives the default prompt, and a file that can be
    read gives its text stripped, with no white space at either end; a
    file that is empty or blank therefore gives the empty prompt, not the
    default. *)
Theorem system_prompt_cached (file cache : option str) :
  let prompt := fst (config.system_prompt file cache) in
  let cache' := snd (config.system_prompt file cache) in
  cache' = Some prompt /\
  (forall file', config.system_prompt file' cache' = (prompt, cache')) /\
  (forall cached, cache = Some cached -> prompt = cached) /\
  (cache = None -> file = None -> prompt = config.default_prompt) /\
  (cache = None -> forall text, file = Some text ->
   prompt = strip text /\ trimmed prompt /\
   (forallb isspace text = true -> prompt = [])).
Proof.
  destruct cache as [cached|]; simpl.
  - split; [reflexivity|]. split; [reflexivity|].
    split; [intros c E; congruence|]. split; discriminate.
  - destruct file as [text|]; simpl.
    + split; [reflexivity|]. split; [reflexivity|].
      split; [discriminate|]. split; [discriminate|].
      intros _ t E. inversion E; subst.
      split; [reflexivity|]. split; [apply strip_trimmed|].
      apply strip_blank.
    + split; [reflexivity|]. split; [reflexivity|].
      split; [discriminate|]. split; [reflexivity|]. discriminate.
Qed.

Lemma system_prompt_cached_witness :
  fst (config.system_prompt (Some (py "  ")) None) = [].
Proof.
  destruct (system_prompt_cached (Some (py "  ")) None)
    as (_ & _ & _ & _ & Hread).
  destruct (Hread eq_refl (py "  ") eq_refl) as (_ & _ & Hblank).
  apply Hblank. reflexivity.
Defined.

(** X15. [Settings.zapi_send_message_url] is the base URL without its
    trailing slashes, followed by /instances/, the instance id, /token/,
    the token and /send-text: slashes at the end of the base URL change
    nothing, and no slash stands right before /instances/. As the
    property always adds /instances/, a base URL that already ends in
    /instances, like the default of line 16, gives
    /instances/instances/. *)
Theorem zapi_send_message_url_slashes (g : config.Gateway) (k : nat) :
  let tail := py "/instances/" ++ config.ZAPI_INSTANCE_ID g
              ++ py "/token/" ++ config.ZAPI_TOKEN g ++ py "/send-text" in
  config.zapi_send_message_url
    (config.mkGateway (config.ZAPI_INSTANCE_ID g) (config.ZAPI_TOKEN g)
                      (config.ZAPI_API_URL g ++ repeat 47%N k))
  = config.zapi_send_message_url g /\
  (exists base_url j,
      config.ZAPI_API_URL g = base_url ++ repeat 47%N j /\
      config.zapi_send_message_url g = base_url ++ tail /\
      match rev base_url with c :: _ => c <> 47%N | [] => True end) /\
  (forall prefix,
      config.ZAPI_API_URL g = prefix ++ py "/instances" ->
      config.zapi_send_message_url g = prefix ++ py "/instances" ++ tail).
Proof.
  intros tail. unfold config.zapi_send_message_url, config.rstrip_slash.
  cbn [config.ZAPI_API_URL config.ZAPI_INSTANCE_ID config.ZAPI_TOKEN].
  fold tail. split; [|split].
  - now rewrite rev_app_distr, rev_repeat, lstrip_slash_repeat.
  - exists (rev (config.lstrip_slash (rev (config.ZAPI_API_URL g)))).
    destruct (lstrip_slash_split (rev (config.ZAPI_API_URL g))) as [j E].
    exists j. split; [|split; [reflexivity|]].
    + rewrite <- (rev_repeat j 47%N), <- rev_app_distr, <- E.
      symmetry. apply rev_involutive.
    + rewrite rev_involutive. apply lstrip_slash_head.
  - intros prefix ->.
    assert (E : rev (prefix ++ py "/instances")
                = 115%N :: rev (prefix ++ py "/instance")).
    { change (py "/instances") with (py "/instance" ++ [115%N]).
      now rewrite app_assoc, rev_app_distr. }
    rewrite E.
    replace (config.lstrip_slash (115%N :: rev (prefix ++ py "/instance")))
      with (115%N :: rev (prefix ++ py "/instance")) by reflexivity.
    rewrite <- E, rev_involutive. now rewrite <- app_assoc.
Qed.

Lemma zapi_send_message_url_slashes_witness :
  config.zapi_send_message_url (demo_gateway (py "https://api.z-api.io/instances"))
  = py "https://api.z-api.io/instances/instances/3C01/token/F00D/send-text".
Proof.
  apply (proj2 (proj2 (zapi_send_message_url_slashes
                         (demo_gateway (py "https://api.z-api.io/instances")) 0))
               (py "https://api.z-api.io")).
  reflexivity.
Defined.

(** ** Composition: a phone that is already known, and the answer *)

Lemma get_or_create_user_known env P name w u w' :
  keys_unique (session w) ->
  (exists u0, In u0 (users (session w)) /\ User.phone_number u0 = P) ->
  get_or_create_user env P name w = (Return u, w') ->
  map key (users (session w')) = map key (users (session w)).
Proof.
  intros Hkeys (u0 & Hu0 & HP0) H.
  destruct (@get_or_create_user_keys env P name w u w' Hkeys H)
    as [[_ Hphones] (added & Hmap & Hlen & Hadded)].
  destruct added as [|k added]; [now rewrite app_nil_r in Hmap|].
  exfalso.
  replace (map User.phone_number (users (session w')))
    with (map snd (map key (users (session w')))) in Hphones
    by (rewrite map_map; reflexivity).
  rewrite Hmap, map_app in Hphones. cbn in Hphones.
  rewrite (Hadded k (or_introl eq_refl)) in Hphones.
  apply NoDup_remove_2 in Hphones. apply Hphones.
  apply in_or_app. left.
  rewrite map_map. apply in_map_iff. exists u0. split; [exact HP0 | exact Hu0].
Qed.

(** X17. A webhook from a phone number that a stored user already has
    never adds a user and never changes an id or a phone number in the
    database, whatever the sender name says and whatever fails on the
    way. *)
Theorem known_phone_adds_no_user (env : Env) (p : ZapiWebhookPayload.t)
        (w : World) (o : outcome Response) (w' : World) :
  keys_unique (database w) ->
  (exists u, In u (users (database w)) /\
             User.phone_number u = ZapiWebhookPayload.phone p) ->
  post_webhook_zapi env (JsonPayload p) w = (o, w') ->
  map key (users (database w')) = map key (users (database w)).
Proof.
  intros Hkeys Hknown H. unfold post_webhook_zapi in H.
  destruct (AsyncSessionFactory env) eqn:Hfactory.
  - apply get_db_cases in H as (o1 & w1 & Hrun & Hcases); [|exact Hfactory].
    assert (Hbody : database w1 = database w /\
                    map key (users (session w1)) = map key (users (database w))).
    { revert Hrun. unfold bind at 1.
      destruct (handle_zapi_webhook (JsonPayload p) (set_session (database w) w))
        as [oh wh] eqn:Hh.
      apply handle_zapi_webhook_tasks in Hh
        as (-> & [(e & ->)|[(resp & ->)|(resp & p' & text & Ep & ->)]]).
      - intros E. inversion E; subst. auto.
      - cbn. intros E. inversion E; subst. auto.
      - inversion Ep; subst p'.
        cbn [snd fst run_background task_phone task_name task_user_message].
        unfold bind.
        destruct (process_incoming_message env (ZapiWebhookPayload.phone p)
                    (ZapiWebhookPayload.senderName p) text
                    (set_session (database w) w)) as [o2 w2] eqn:Hp.
        apply process_incoming_message_effect in Hp
          as (-> & Hd & msg & _ & _ &
              [[Hlost _]|(user & w3 & added & Hgoc & Hu & _)]).
        + unfold ret. intros E. inversion E; subst.
          split; [exact Hd|]. now rewrite Hlost.
        + apply get_or_create_user_known in Hgoc; [|exact Hkeys|exact Hknown].
          unfold ret. intros E. inversion E; subst.
          split; [exact Hd|]. rewrite Hu. exact Hgoc. }
    destruct Hbody as [Hd Hk].
    destruct Hcases as [(a & -> & -> & ->)|(_ & Hd' & _)].
    + exact Hk.
    + now rewrite Hd', Hd.
  - unfold get_db in H. rewrite Hfactory in H. cbn in H. now inversion H.
Qed.

Lemma known_phone_adds_no_user_witness :
  exists o w',
    post_webhook_zapi quiet_env (inbound (py "5511987654321") (py "oi")) ana_world
    = (o, w') /\
    map key (users (database w')) = map key (users (database ana_world)).
Proof.
  do 2 eexists. split; [vm_compute; reflexivity|].
  eapply (@known_phone_adds_no_user
            quiet_env (inbound_payload (py "5511987654321") (py "oi")) ana_world).
  - split; simpl; repeat constructor; intros [].
  - exists ana. split; [now left | reflexivity].
  - vm_compute. reflexivity.
Defined.

(** X18. With a session factory and a database that answers, the route
    returns exactly what [handle_zapi_webhook] answered, whatever the
    completion service and the gateway do and however the queued run
    ends: the caller of the webhook never sees a failure of the
    pipeline. *)
Theorem webhook_answer_ignores_pipeline (env : Env) (request : RequestBody)
        (w : World) (resp : Response) (tasks : list BackgroundTask) (w0 : World) :
  AsyncSessionFactory env = true ->
  reliable env ->
  handle_zapi_webhook request (set_session (database w) w)
  = (Return (resp, tasks), w0) ->
  exists w', post_webhook_zapi env request w = (Return resp, w').
Proof.
  intros Hfactory Hrel Hh.
  unfold post_webhook_zapi, get_db. rewrite Hfactory. cbn [negb].
  unfold open_session, commit.
  unfold bind at 1, try_except, bind at 1, bind at 1. rewrite Hh.
  cbn [snd fst]. unfold bind at 1.
  destruct (run_background env tasks w0) as [o2 w2] eqn:Hb.
  assert (Ho2 : o2 = Return tt).
  { clear Hh. revert w0 o2 w2 Hb.
    induction tasks as [|t tasks IH]; intros w0 o2 w2; simpl.
    - unfold ret. intros H. now inversion H.
    - unfold bind.
      destruct (process_incoming_message env (task_phone t) (task_name t)
                                         (task_user_message t) w0)
        as [o1 w1] eqn:H1.
      apply process_incoming_message_effect in H1 as (-> & _).
      apply IH. }
  subst o2. unfold ret at 1, bind at 1, bind at 1.
  rewrite (round_trip_ok env w2 (Hrel _)).
  unfold ret. eexists. reflexivity.
Qed.

Lemma webhook_answer_ignores_pipeline_witness :
  exists w',
    post_webhook_zapi silent_env (inbound (py "11987654321") (py "oi")) new_world
    = (Return (status "received"), w').
Proof.
  eapply (@webhook_answer_ignores_pipeline
            silent_env (inbound (py "11987654321") (py "oi")) new_world).
  - reflexivity.
  - intros k. reflexivity.
  - vm_compute. reflexivity.
Defined.
